(** * A users REST handler over a key-value table

    Shallow embedding of [lambda_function.py]: an AWS Lambda handler that
    routes HTTP-shaped events to five operations on a DynamoDB table of
    users, and the properties of its specification.

    The Python standard library ([json], [uuid]), boto3 and the table
    service are outside the program.  [json.dumps] and [str(UUID)] are
    written out; [json.loads] and the random source behind [uuid.uuid4] are
    parameters of the development.  The table is a key-value store behind
    boto3: values are checked by boto3's serializer on the way in, numbers
    come back as [Decimal], and the service may refuse or fail any request
    (an oracle of the world says which). *)

From Stdlib Require Import ZArith Ascii DecimalString.
From stdpp Require Import gmap strings list fin_maps.

Local Open Scope Z_scope.

Set Warnings "-register-all".

(** ** JSON values, as [json.loads] yields them and [json.dumps] takes them *)

(** A Python [dict] is kept as an association list in insertion order (the
    order [json.dumps] prints); its keys are pairwise distinct.  A [float]
    is carried by its Python [repr], which is all this program does with it. *)
Inductive json : Type :=
| JNull
| JBool (b : bool)
| JInt (z : Z)
| JFloat (repr : string)
| JStr (s : string)
| JArr (l : list json)
| JObj (d : list (string * json)).

Module Dict.
(** [d.get(k)] *)
Fixpoint get {A} (k : string) (d : list (string * A)) : option A :=
  match d with
  | [] => None
  | (k', v) :: d' => if String.eqb k k' then Some v else get k d'
  end.

(** [k in d] *)
Definition mem {A} (k : string) (d : list (string * A)) : bool :=
  match get k d with Some _ => true | None => false end.

(** [d[k] = v]: an existing key keeps its position, a new one goes last. *)
Fixpoint set {A} (k : string) (v : A) (d : list (string * A)) : list (string * A) :=
  match d with
  | [] => [(k, v)]
  | (k', v') :: d' => if String.eqb k k' then (k, v) :: d' else (k', v') :: set k v d'
  end.

(** [d] without the key [k] *)
Fixpoint remove {A} (k : string) (d : list (string * A)) : list (string * A) :=
  match d with
  | [] => []
  | (k', v) :: d' => if String.eqb k k' then remove k d' else (k', v) :: remove k d'
  end.
End Dict.

(** ** [json.dumps] with its default arguments *)

Definition dquote : ascii := "034"%char.
Definition backslash : ascii := "092"%char.

Definition hex_digit (n : N) : ascii :=
  match n with
  | 0 => "0" | 1 => "1" | 2 => "2" | 3 => "3" | 4 => "4" | 5 => "5"
  | 6 => "6" | 7 => "7" | 8 => "8" | 9 => "9" | 10 => "a" | 11 => "b"
  | 12 => "c" | 13 => "d" | 14 => "e" | _ => "f"
  end%N%char.

(** [width] lowercase hexadecimal digits of [v], most significant first
    (['%0<width>x' % v] for [v < 16 ^ width]). *)
Fixpoint hex_fixed (width : nat) (v : N) : string :=
  match width with
  | O => ""
  | S k => hex_fixed k (v / 16) +:+ String (hex_digit (v mod 16)) ""
  end.

(** One character of a string literal ([ESCAPE_ASCII] and [ESCAPE_DCT] of
    [json.encoder]); characters are code points below 256. *)
Definition escape_char (c : ascii) : string :=
  let n := N_of_ascii c in
  if Ascii.eqb c dquote then String backslash (String dquote "")
  else if Ascii.eqb c backslash then String backslash (String backslash "")
  else if (n =? 8)%N then String backslash "b"
  else if (n =? 12)%N then String backslash "f"
  else if (n =? 10)%N then String backslash "n"
  else if (n =? 13)%N then String backslash "r"
  else if (n =? 9)%N then String backslash "t"
  else if ((32 <=? n) && (n <=? 126))%N then String c ""
  else String backslash ("u" +:+ hex_fixed 4 n).

Fixpoint escape_chars (s : string) : string :=
  match s with
  | EmptyString => ""
  | String c s' => escape_char c +:+ escape_chars s'
  end.

Definition encode_string (s : string) : string :=
  String dquote (escape_chars s +:+ String dquote "").

(** [sep.join(parts)] *)
Fixpoint join (sep : string) (parts : list string) : string :=
  match parts with
  | [] => ""
  | [p] => p
  | p :: ps => p +:+ sep +:+ join sep ps
  end.

Definition str_int (z : Z) : string := NilZero.string_of_int (Z.to_int z).

Fixpoint json_dumps (v : json) : string :=
  match v with
  | JNull => "null"
  | JBool true => "true"
  | JBool false => "false"
  | JInt z => str_int z
  | JFloat r => r
  | JStr s => encode_string s
  | JArr l => "[" +:+ join ", " (map json_dumps l) +:+ "]"
  | JObj d =>
      "{" +:+ join ", " (map (fun kv => encode_string (fst kv) +:+ ": " +:+ json_dumps (snd kv)) d)
          +:+ "}"
  end.

(** The text between double quotes, for spelling expected outputs. *)
Definition quoted (s : string) : string := String dquote (s +:+ String dquote "").

(** A string whose characters [json.dumps] prints as they are. *)
Definition verbatim (s : string) : Prop :=
  forall n c, String.get n s = Some c -> escape_char c = String c "".

(** ** [str(uuid.UUID)] *)

(** [UUID.__str__]: the 32 hexadecimal digits of the 128-bit value, cut
    8-4-4-4-12. *)
Definition str_uuid (v : N) : string :=
  let hex := hex_fixed 32 v in
  String.substring 0 8 hex +:+ "-" +:+ String.substring 8 4 hex +:+ "-"
    +:+ String.substring 12 4 hex +:+ "-" +:+ String.substring 16 4 hex +:+ "-"
    +:+ String.substring 20 12 hex.

(** ** Events, responses and exceptions *)

(** A key of the event: missing, [null], or holding a value. *)
Inductive field (A : Type) : Type :=
| Absent
| Null
| Present (a : A).
Arguments Absent {A}.
Arguments Null {A}.
Arguments Present {A} a.

Module Event.
(** The inbound event; [httpMethod] and [path] are strings when present
    ([None] is a missing key). *)
Record event : Type := {
  httpMethod : option string;
  path : option string;
  pathParameters : field (gmap string string);
  body : field string
}.
End Event.
Abbreviation event := Event.event.

Record response : Type := { statusCode : Z; body : string }.

(** The exceptions this program can meet. *)
Inductive exn : Type :=
| JSONDecodeError
| ClientError (msg : string)        (* botocore's BotoCoreError and ClientError *)
| KeyError (key : string)
| TypeError (msg : string)
| AttributeError (msg : string)
| ArithmeticError (msg : string).    (* a trapped signal of the decimal module *)

(** ** The table *)

(** An item of the table, a Python [dict] of attributes. *)
Abbreviation item := (list (string * json)).

(** A request sent to the table service. *)
Inductive call : Type :=
| PutItem (it : item)
| GetItem (key : string)
| Scan
| UpdateItem (key : string) (name email : json)
| DeleteItem (key : string).

(** What the table service does on its own account: [fails n c] is the
    message of the error the service (or the connection to it) answers the
    request [c] with when [n] requests were sent before it, [None] when it
    serves the request; [scan_page t] is what a scan of the table [t]
    returns, the items of its first page in the order the service picks. *)
Record service : Type := {
  fails : nat -> call -> option string;
  scan_page : gmap string item -> list item
}.

(** What an invocation can read and change: the table, which holds for
    each key [user_id] the other attributes of its item; the requests sent
    to the table so far, oldest first; how many identifiers [uuid.uuid4]
    has handed out; and the behaviour of the table service. *)
Record world : Type := {
  table : gmap string item;
  calls : list call;
  drawn : nat;
  backend : service
}.

(** Computations that read and change the world and may raise. *)
Definition M (A : Type) : Type := world -> (exn + A) * world.

Definition ret {A} (a : A) : M A := fun w => (inr a, w).
Definition raise {A} (e : exn) : M A := fun w => (inl e, w).
Definition bind {A B} (m : M A) (k : A -> M B) : M B :=
  fun w => match m w with
           | (inl e, w') => (inl e, w')
           | (inr a, w') => k a w'
           end.

Declare Scope py_scope.
Delimit Scope py_scope with py.
Notation "x <- m ;; k" := (bind m (fun x => k))
  (at level 100, m at next level, right associativity) : py_scope.
Notation "m ;; k" := (bind m (fun _ => k))
  (at level 100, right associativity) : py_scope.
Local Open Scope py_scope.

Definition set_table (t : gmap string item) : M unit :=
  fun w => (inr tt, {| table := t; calls := calls w; drawn := drawn w; backend := backend w |}).

Definition get_table : M (gmap string item) := fun w => (inr (table w), w).

(** *** What boto3 does to values on the way in *)

(** [10 ** 38]: the serializer keeps 38 significant digits. *)
Definition decimal_limit : Z := 10 ^ 38.

Fixpoint strip_zeros (fuel : nat) (z : Z) : Z :=
  match fuel with
  | O => z
  | S f => if (z mod 10 =? 0) then strip_zeros f (z / 10) else z
  end.

(** The text of the signal [DYNAMODB_CONTEXT.create_decimal] raises on an
    integer of more than 38 digits: [Rounded] alone when the digits lost are
    zeros, [Inexact] before it otherwise. *)
Definition decimal_signals (z : Z) : string :=
  if (Z.abs (strip_zeros (Z.to_nat (Z.log2 (Z.abs z))) z) <? decimal_limit)
  then "[<class 'decimal.Rounded'>]"
  else "[<class 'decimal.Inexact'>, <class 'decimal.Rounded'>]".

Definition first_error (l : list (option exn)) : option exn :=
  List.fold_right (fun e rest => match e with Some _ => e | None => rest end) None l.

(** [TypeSerializer.serialize(v)]: the exception it raises, if any.  A
    [float] is refused, an integer must fit 38 digits; lists and dicts are
    gone through in order. *)
Fixpoint refused (v : json) : option exn :=
  match v with
  | JInt z =>
      if (Z.abs z <? decimal_limit) then None
      else Some (ArithmeticError (decimal_signals z))
  | JFloat _ => Some (TypeError "Float types are not supported. Use Decimal types instead.")
  | JArr l => first_error (map refused l)
  | JObj d => first_error (map (fun kv => refused (snd kv)) d)
  | JNull | JBool _ | JStr _ => None
  end.

(** boto3 serializes the parameters of a request before it sends it. *)
Definition serialize (v : json) : M unit :=
  match refused v with
  | Some e => raise e
  | None => ret tt
  end.

(** *** What the service does with a request *)

(** Sending the request [c]: it is on record, and the service serves it,
    or fails it with a [ClientError]; a failed request changes nothing. *)
Definition send {A} (c : call) (k : M A) : M A :=
  fun w =>
    let w' := {| table := table w; calls := calls w ++ [c]; drawn := drawn w;
                 backend := backend w |} in
    match fails (backend w) (length (calls w)) c with
    | Some msg => (inl (ClientError msg), w')
    | None => k w'
    end.

Definition validation_error (operation reason : string) : exn :=
  ClientError ("An error occurred (ValidationException) when calling the " +:+ operation
               +:+ " operation: " +:+ reason).

(** The size of a string in UTF-8, its characters being code points below
    256. *)
Fixpoint utf8_length (s : string) : nat :=
  match s with
  | EmptyString => 0
  | String c s' => (if (N_of_ascii c <? 128)%N then 1 else 2) + utf8_length s'
  end.

(** The service refuses a key that is empty or longer than 2048 bytes. *)
Definition check_key {A} (operation key : string) (k : M A) : M A :=
  if String.eqb key "" then
    raise (validation_error operation
             ("One or more parameter values are not valid. The AttributeValue for a key "
              +:+ "attribute cannot contain an empty string value. Key: user_id"))
  else if (2048 <? utf8_length key)%nat then
    raise (validation_error operation
             ("One or more parameter values were invalid: Size of hashkey has exceeded "
              +:+ "the maximum size limit of2048 bytes"))
  else k.

(** The item stored under [key]: the key attribute, then the others. *)
Definition with_key (key : string) (attrs : item) : item := ("user_id", JStr key) :: attrs.

Module Table.
(** [table.put_item(Item=it)]: the item replaces whatever its key held. *)
Definition put_item (it : item) : M unit :=
  serialize (JObj it);;
  send (PutItem it)
    match Dict.get "user_id" it with
    | Some (JStr key) =>
        check_key "PutItem" key
          (t <- get_table;; set_table (<[key := Dict.remove "user_id" it]> t))
    | _ =>
        raise (validation_error "PutItem"
                 "One or more parameter values were invalid: Missing the key user_id in the item")
    end.

(** [table.get_item(Key={'user_id': key}).get('Item')].  The numbers of
    the item come back as [Decimal]; they stay [JInt] and [JFloat] here and
    [success_response_read] below knows them for what they are.  The
    service returns the attributes in an order of its own; the key comes
    first here, and what is stated below of a fetched item is stated of
    its attributes, not of their order. *)
Definition get_item (key : string) : M (option item) :=
  send (GetItem key)
    (check_key "GetItem" key (t <- get_table;; ret (with_key key <$> t !! key))).

(** [table.scan().get('Items', [])]: one page, no more. *)
Definition scan : M (list item) :=
  send Scan (fun w => (inr (scan_page (backend w) (table w)), w)).

(** [table.update_item] with [SET #name = :name, email = :email]: the two
    attributes are overwritten; an absent key gets a new item holding the
    key and the two attributes. *)
Definition update_item (key : string) (name email : json) : M unit :=
  serialize (JObj [(":name", name); (":email", email)]);;
  send (UpdateItem key name email)
    (check_key "UpdateItem" key (
       t <- get_table;;
       let old := default [] (t !! key) in
       set_table (<[key := Dict.set "email" email (Dict.set "name" name old)]> t))).

(** [table.delete_item(Key={'user_id': key})] *)
Definition delete_item (key : string) : M unit :=
  send (DeleteItem key)
    (check_key "DeleteItem" key (t <- get_table;; set_table (delete key t))).
End Table.

Arguments Table.put_item : simpl never.
Arguments Table.get_item : simpl never.
Arguments Table.scan : simpl never.
Arguments Table.update_item : simpl never.
Arguments Table.delete_item : simpl never.

(** ** The Python operations the handlers use *)

(** [event['body']] *)
Definition event_body (ev : event) : M (option string) :=
  match Event.body ev with
  | Absent => raise (KeyError "body")
  | Null => ret None
  | Present s => ret (Some s)
  end.

(** [event.get('pathParameters', {})]; [None] is Python's [None]. *)
Definition event_path_params (ev : event) : option (gmap string string) :=
  match Event.pathParameters ev with
  | Absent => Some ∅
  | Null => None
  | Present m => Some m
  end.

(** [path_params.get('user_id')] *)
Definition params_user_id (path_params : option (gmap string string)) : M (option string) :=
  match path_params with
  | None => raise (AttributeError "'NoneType' object has no attribute 'get'")
  | Some m => ret (m !! "user_id")
  end.

Definition type_name (v : json) : string :=
  match v with
  | JNull => "NoneType" | JBool _ => "bool" | JInt _ => "int" | JFloat _ => "float"
  | JStr _ => "str" | JArr _ => "list" | JObj _ => "dict"
  end.

(** [key in v] *)
Definition contains (key : string) (v : json) : M bool :=
  match v with
  | JObj d => ret (Dict.mem key d)
  | JArr l => ret (existsb (fun x => match x with JStr s => String.eqb s key | _ => false end) l)
  | JStr s => ret (match String.index 0 key s with Some _ => true | None => false end)
  | _ => raise (TypeError ("argument of type '" +:+ type_name v +:+ "' is not iterable"))
  end.

(** [v[key]] for a string [key] *)
Definition getitem (v : json) (key : string) : M json :=
  match v with
  | JObj d => match Dict.get key d with
              | Some x => ret x
              | None => raise (KeyError key)
              end
  | JArr _ => raise (TypeError "list indices must be integers or slices, not str")
  | JStr _ => raise (TypeError "string indices must be integers, not 'str'")
  | _ => raise (TypeError ("'" +:+ type_name v +:+ "' object is not subscriptable"))
  end.

Definition USERS_PATH : string := "/users".
Definition HEALTH_PATH : string := "/health".

Definition success_response (data : json) (status_code : Z) : response :=
  {| statusCode := status_code; body := json_dumps data |}.

Definition error_response (status_code : Z) (message : string) : response :=
  {| statusCode := status_code; body := json_dumps (JObj [("error", JStr message)]) |}.

(** Does the value hold a number? *)
Fixpoint has_number (v : json) : bool :=
  match v with
  | JInt _ | JFloat _ => true
  | JArr l => existsb has_number l
  | JObj d => existsb (fun kv => has_number (snd kv)) d
  | JNull | JBool _ | JStr _ => false
  end.

(** [success_response(data, status_code)] for [data] read from the table:
    its numbers are [Decimal] objects, on which [json.dumps] raises. *)
Definition success_response_read (data : json) (status_code : Z) : M response :=
  if has_number data then raise (TypeError "Object of type Decimal is not JSON serializable")
  else ret (success_response data status_code).

(** [except (BotoCoreError, ClientError) as e], the handler every operation
    wraps its body in. *)
Definition except_backend (m : M response) : M response :=
  fun w => match m w with
           | (inl (ClientError msg), w') =>
               (inr (error_response 500 ("DynamoDB error: " +:+ msg)), w')
           | r => r
           end.

(** ** The handlers *)

Section Handlers.
(** [json.loads] on a string: the value, or [None] where it raises
    [JSONDecodeError].  On a few texts [json.loads] raises something else,
    [ValueError] on an integer of more than 4300 digits and [RecursionError]
    on deep nesting, and the handler answers 500 without a request to the
    table; what is stated below of a body is stated of one that decodes to
    a value or is rejected with [JSONDecodeError]. *)
Variable json_loads : string -> option json.
(** The value of the [n]-th identifier [uuid.uuid4] returns. *)
Variable uuid4 : nat -> N.

(** [json.loads(x)] *)
Definition loads (x : option string) : M json :=
  match x with
  | None => raise (TypeError "the JSON object must be str, bytes or bytearray, not NoneType")
  | Some s => match json_loads s with
              | Some v => ret v
              | None => raise JSONDecodeError
              end
  end.

(** [str(uuid.uuid4())] *)
Definition new_uuid : M string :=
  fun w => (inr (str_uuid (uuid4 (drawn w))),
            {| table := table w; calls := calls w; drawn := S (drawn w);
               backend := backend w |}).

(** ['name' not in body or 'email' not in body] *)
Definition missing_fields (body : json) : M bool :=
  has_name <- contains "name" body;;
  if negb has_name then ret true
  else has_email <- contains "email" body;; ret (negb has_email).

Definition create_user (ev : event) : M response :=
  except_backend (
    raw <- event_body ev;;
    body <- loads raw;;
    missing <- missing_fields body;;
    if missing then ret (error_response 400 "Missing required fields: name, email")
    else
      user_id <- new_uuid;;
      name <- getitem body "name";;
      email <- getitem body "email";;
      let user_data := [("user_id", JStr user_id); ("name", name); ("email", email)] in
      Table.put_item user_data;;
      ret (success_response (JObj user_data) 201)).

Definition list_all_users : M response :=
  except_backend (
    users <- Table.scan;;
    success_response_read (JArr (map JObj users)) 200).

Definition get_user (ev : event) : M response :=
  except_backend (
    user_id <- params_user_id (event_path_params ev);;
    match user_id with
    | None | Some "" => list_all_users
    | Some user_id =>
        user <- Table.get_item user_id;;
        match user with
        | None | Some [] => ret (error_response 404 "User not found")
        | Some user => success_response_read (JObj user) 200
        end
    end).

Definition update_user (ev : event) : M response :=
  except_backend (
    user_id <- params_user_id (event_path_params ev);;
    match user_id with
    | None | Some "" => ret (error_response 400 "Missing user ID")
    | Some user_id =>
        raw <- event_body ev;;
        body <- loads raw;;
        missing <- missing_fields body;;
        if missing then ret (error_response 400 "Missing required fields: name, email")
        else
          name <- getitem body "name";;
          email <- getitem body "email";;
          Table.update_item user_id name email;;
          ret (success_response (JObj [("message", JStr "User updated successfully")]) 200)
    end).

Definition delete_user (ev : event) : M response :=
  except_backend (
    user_id <- params_user_id (event_path_params ev);;
    match user_id with
    | None | Some "" => ret (error_response 400 "Missing user ID")
    | Some user_id =>
        Table.delete_item user_id;;
        ret (success_response
               (JObj [("message", JStr ("User " +:+ user_id +:+ " deleted successfully"))]) 204)
    end).

(** The [if]/[elif] chain of [lambda_handler]. *)
Definition route (ev : event) : M response :=
  let http_method := default "" (Event.httpMethod ev) in
  let path := default "" (Event.path ev) in
  if String.eqb http_method "GET" && String.eqb path HEALTH_PATH then
    ret (success_response (JObj [("message", JStr "API is up and running")]) 200)
  else if String.eqb http_method "POST" && String.eqb path USERS_PATH then
    create_user ev
  else if String.eqb http_method "GET" && String.prefix USERS_PATH path then
    get_user ev
  else if String.eqb http_method "PUT" && String.prefix USERS_PATH path then
    update_user ev
  else if String.eqb http_method "DELETE" && String.prefix USERS_PATH path then
    delete_user ev
  else ret (error_response 405 "Method Not Allowed").

(** The two [except] clauses of [lambda_handler]: what becomes of the
    outcome of the chain. *)
Definition respond (r : (exn + response) * world) : response * world :=
  match r with
  | (inr r, w') => (r, w')
  | (inl JSONDecodeError, w') => (error_response 400 "Invalid JSON format", w')
  | (inl (ClientError msg), w') | (inl (TypeError msg), w') | (inl (AttributeError msg), w')
  | (inl (ArithmeticError msg), w') =>
      (error_response 500 ("Internal Server Error: " +:+ msg), w')
  | (inl (KeyError key), w') =>
      (error_response 500 ("Internal Server Error: '" +:+ key +:+ "'"), w')
  end.

(** [lambda_handler(event, context)]; [context] is not used. *)
Definition lambda_handler (ev : event) (w : world) : response * world :=
  respond (route ev w).
End Handlers.

(** ** The dispatch table, as the specification words it *)

Inductive operation : Type := Health | Create | Read | Update | Delete.

(** The five rules in their priority order: a test on method and path, and
    the operation it selects. *)
Definition dispatch_table : list ((string -> string -> bool) * operation) :=
  [ (fun m p => String.eqb m "GET" && String.eqb p HEALTH_PATH, Health);
    (fun m p => String.eqb m "POST" && String.eqb p USERS_PATH, Create);
    (fun m p => String.eqb m "GET" && String.prefix USERS_PATH p, Read);
    (fun m p => String.eqb m "PUT" && String.prefix USERS_PATH p, Update);
    (fun m p => String.eqb m "DELETE" && String.prefix USERS_PATH p, Delete) ].

(** First match wins. *)
Definition first_match (m p : string) : option operation :=
  snd <$> List.find (fun rule => fst rule m p) dispatch_table.

Definition health_response : response :=
  success_response (JObj [("message", JStr "API is up and running")]) 200.

Definition run_operation (json_loads : string -> option json) (uuid4 : nat -> N)
    (op : operation) (ev : event) : M response :=
  match op with
  | Health => ret health_response
  | Create => create_user json_loads uuid4 ev
  | Read => get_user ev
  | Update => update_user json_loads ev
  | Delete => delete_user ev
  end.

(** The method and path the chain looks at. *)
Definition method_of (ev : event) : string := default "" (Event.httpMethod ev).
Definition path_of (ev : event) : string := default "" (Event.path ev).

(** A request that writes to the table. *)
Definition is_write (c : call) : bool :=
  match c with
  | PutItem _ | UpdateItem _ _ _ | DeleteItem _ => true
  | GetItem _ | Scan => false
  end.

(** The world after a request [c] that leaves the table as [t]. *)
Definition after (w : world) (c : call) (t : gmap string item) : world :=
  {| table := t; calls := calls w ++ [c]; drawn := drawn w; backend := backend w |}.

(** The three-field record of a user. *)
Definition record (user_id : string) (name email : json) : item :=
  [("user_id", JStr user_id); ("name", name); ("email", email)].

(** The events in which the handlers find no identifier: the key
    [pathParameters] is missing, or its mapping has no [user_id] or an
    empty one. *)
Definition no_user_id (ev : event) : Prop :=
  Event.pathParameters ev = Absent
  \/ exists params, Event.pathParameters ev = Present params
                    /\ (params !! "user_id" = None \/ params !! "user_id" = Some "").

(** What an invocation may have sent to the table: nothing, or one write. *)
Definition at_most_one_write (w w' : world) : Prop :=
  calls w' = calls w \/ exists c, is_write c = true /\ calls w' = calls w ++ [c].

(** ** Sample instances, for the examples below *)

(** The body of the specification's example, a JSON object with the keys
    [name] and [email]; and one with [name] alone. *)
Definition ana_text : string :=
  "{" +:+ quoted "name" +:+ ":" +:+ quoted "Ana" +:+ ","
      +:+ quoted "email" +:+ ":" +:+ quoted "ana@x.com" +:+ "}".
Definition name_only_text : string := "{" +:+ quoted "name" +:+ ":" +:+ quoted "Ana" +:+ "}".

Definition ana : item := [("name", JStr "Ana"); ("email", JStr "ana@x.com")].

(** A decoder that knows these two texts and rejects the others; it stands
    for [json.loads] where an example needs a concrete one. *)
Definition sample_loads (s : string) : option json :=
  if String.eqb s ana_text then Some (JObj ana)
  else if String.eqb s name_only_text then Some (JObj [("name", JStr "Ana")])
  else None.

(** An identifier source that counts. *)
Definition sample_uuid4 (n : nat) : N := N.of_nat n.

Definition request (m p : string) (params : field (gmap string string)) (b : field string)
  : event :=
  {| Event.httpMethod := Some m; Event.path := Some p;
     Event.pathParameters := params; Event.body := b |}.

(** A service that serves every request and scans the whole table. *)
Definition reliable : service :=
  {| fails := fun _ _ => None;
     scan_page := fun t => map (fun kv => with_key (fst kv) (snd kv)) (map_to_list t) |}.

Definition empty_world : world :=
  {| table := ∅; calls := []; drawn := 0; backend := reliable |}.

(** A table holding one user under the key [u1]. *)
Definition one_user : world :=
  {| table := {["u1" := ana]}; calls := []; drawn := 1; backend := reliable |}.

Definition u1_params : gmap string string := {["user_id" := "u1"]}.
Definition empty_id_params : gmap string string := {["user_id" := ""]}.

(** The identifier [sample_uuid4] gives first. *)
Definition first_id : string := "00000000-0000-0000-0000-000000000000".

Definition post_ana : event := request "POST" "/users" Null (Present ana_text).
Definition post_name_only : event := request "POST" "/users" Null (Present name_only_text).
Definition post_garbled : event := request "POST" "/users" Null (Present "{name").
Definition post_no_body : event := request "POST" "/users" Null Null.
Definition get_first_id : event :=
  request "GET" ("/users/" +:+ first_id) (Present {["user_id" := first_id]}) Null.
Definition get_u1 : event := request "GET" "/users/u1" (Present u1_params) Null.
Definition put_u1 : event := request "PUT" "/users/u1" (Present u1_params) (Present ana_text).
Definition delete_u1 : event := request "DELETE" "/users/u1" (Present u1_params) Null.
(** [GET /users] as the gateway sends it: no path parameters, no body. *)
Definition get_collection : event := request "GET" "/users" Null Null.
Definition get_empty_id : event := request "GET" "/users/" (Present empty_id_params) Null.
Definition put_empty_id : event :=
  request "PUT" "/users/" (Present empty_id_params) (Present ana_text).
Definition delete_empty_id : event := request "DELETE" "/users/" (Present empty_id_params) Null.
Definition patch_u1 : event := request "PATCH" "/users/u1" (Present u1_params) Null.

(** ** Vocabulary for what the table takes and returns *)

(** The service serves the request [c] when it is the next one sent from
    [w]. *)
Definition served (w : world) (c : call) : Prop :=
  fails (backend w) (length (calls w)) c = None.

(** A key the service takes: not empty, at most 2048 bytes. *)
Definition key_ok (key : string) : Prop :=
  key <> "" /\ (utf8_length key <= 2048)%nat.

(** A value boto3 serializes: no [float] in it and no integer of more than
    38 digits. *)
Definition storable (v : json) : Prop := refused v = None.

(** A value without numbers: what [json.dumps] still prints when the value
    comes back from the table. *)
Definition plain (v : json) : Prop := has_number v = false.

(** ** Vocabulary for the properties of the whole handler *)

(** The status codes the program writes. *)
Definition status_codes : list Z := [200; 201; 204; 400; 404; 405; 500].

(** At most one request was sent to the table between [w] and [w']. *)
Definition at_most_one_call (w w' : world) : Prop :=
  calls w' = calls w \/ exists c, calls w' = calls w ++ [c].

(** A JSON value that is not an object, an array or a string. *)
Definition scalar (v : json) : bool :=
  match v with
  | JNull | JBool _ | JInt _ | JFloat _ => true
  | JStr _ | JArr _ | JObj _ => false
  end.

(** The events create and update read a body from: a POST on the users
    path, or a PUT on a path under it with a non-empty [user_id]. *)
Definition reads_body (ev : event) : Prop :=
  (Event.httpMethod ev = Some "POST" /\ Event.path ev = Some USERS_PATH)
  \/ (exists p params user_id,
        Event.httpMethod ev = Some "PUT" /\ Event.path ev = Some p
        /\ String.prefix USERS_PATH p = true
        /\ Event.pathParameters ev = Present params
        /\ params !! "user_id" = Some user_id /\ user_id <> "").

(** What holds of every invocation: the status is one the program writes,
    at most one request went to the table, and an error status leaves the
    table as it was. *)
Definition well_behaved (w : world) (out : response * world) : Prop :=
  In (statusCode (fst out)) status_codes
  /\ at_most_one_call w (snd out)
  /\ (400 <= statusCode (fst out) -> table (snd out) = table w).

(** ** More sample instances *)

(** A decoder for three bodies that are not objects: the number [5], and
    the arrays [["name", "email"]] and [[]]. *)
Definition names_text : string := "[" +:+ quoted "name" +:+ ", " +:+ quoted "email" +:+ "]".
Definition sentence_text : string := quoted "my name and email".
Definition sample_loads_values (s : string) : option json :=
  if String.eqb s "5" then Some (JInt 5)
  else if String.eqb s names_text then Some (JArr [JStr "name"; JStr "email"])
  else if String.eqb s "[]" then Some (JArr [])
  else if String.eqb s sentence_text then Some (JStr "my name and email")
  else None.

Definition bob : item := [("name", JStr "Bob"); ("email", JStr "bob@x.com")].
Definition bob_text : string :=
  "{" +:+ quoted "name" +:+ ":" +:+ quoted "Bob" +:+ ","
      +:+ quoted "email" +:+ ":" +:+ quoted "bob@x.com" +:+ "}".

(** A decoder that knows the bodies of two people. *)
Definition sample_loads_people (s : string) : option json :=
  if String.eqb s ana_text then Some (JObj ana)
  else if String.eqb s bob_text then Some (JObj bob)
  else None.

(** A table holding two users. *)
Definition two_users : world :=
  {| table := <["u2" := bob]> {["u1" := ana]}; calls := []; drawn := 2; backend := reliable |}.

Definition get_archive : event := request "GET" "/users-archive" Absent Null.
Definition get_bare : event := request "GET" "/users" Absent Null.
Definition post_five : event := request "POST" "/users" Null (Present "5").
Definition post_names : event := request "POST" "/users" Null (Present names_text).
Definition put_names : event := request "PUT" "/users/u1" (Present u1_params) (Present names_text).
Definition post_sentence : event := request "POST" "/users" Null (Present sentence_text).
Definition put_first_id_bob : event :=
  request "PUT" ("/users/" +:+ first_id) (Present {["user_id" := first_id]}) (Present bob_text).

Definition put_u1_bob : event := request "PUT" "/users/u1" (Present u1_params) (Present bob_text).

(** Bodies whose [name] is a number: the integer [5], the float [1.5]. *)
Definition numbered_text : string :=
  "{" +:+ quoted "name" +:+ ":5," +:+ quoted "email" +:+ ":" +:+ quoted "ana@x.com" +:+ "}".
Definition float_text : string :=
  "{" +:+ quoted "name" +:+ ":1.5," +:+ quoted "email" +:+ ":" +:+ quoted "ana@x.com" +:+ "}".
Definition numbered : item := [("name", JInt 5); ("email", JStr "ana@x.com")].

(** A decoder that knows these two bodies. *)
Definition sample_loads_numbers (s : string) : option json :=
  if String.eqb s numbered_text then Some (JObj numbered)
  else if String.eqb s float_text
       then Some (JObj [("name", JFloat "1.5"); ("email", JStr "ana@x.com")])
       else None.

Definition post_numbered : event := request "POST" "/users" Null (Present numbered_text).
Definition post_float : event := request "POST" "/users" Null (Present float_text).
Definition put_u1_numbered : event :=
  request "PUT" "/users/u1" (Present u1_params) (Present numbered_text).
Definition put_u1_float : event :=
  request "PUT" "/users/u1" (Present u1_params) (Present float_text).

(** An identifier source that returns the same value every time. *)
Definition stuck_uuid4 (_ : nat) : N := 7%N.

(** A table holding one user whose record has a number in it. *)
Definition one_numbered_user : world :=
  {| table := {["u1" := numbered]}; calls := []; drawn := 1; backend := reliable |}.

(** The name of the operation a request calls. *)
Definition call_name (c : call) : string :=
  match c with
  | PutItem _ => "PutItem"
  | GetItem _ => "GetItem"
  | Scan => "Scan"
  | UpdateItem _ _ _ => "UpdateItem"
  | DeleteItem _ => "DeleteItem"
  end.

(** What the service answers when the table does not exist. *)
Definition not_found_text (c : call) : string :=
  "An error occurred (ResourceNotFoundException) when calling the " +:+ call_name c
  +:+ " operation: Requested resource not found".

(** A service that refuses every request. *)
Definition no_table : service :=
  {| fails := fun _ c => Some (not_found_text c); scan_page := fun _ => [] |}.

(** A service that serves every request and returns one item per scan. *)
Definition one_per_page : service :=
  {| fails := fun _ _ => None;
     scan_page := fun t => take 1 (map (fun kv => with_key (fst kv) (snd kv)) (map_to_list t)) |}.

(** The table of [one_user] behind a service that refuses every request. *)
Definition one_user_no_table : world :=
  {| table := {["u1" := ana]}; calls := []; drawn := 1; backend := no_table |}.

(** The table of [two_users] behind a service that pages by one. *)
Definition two_users_paged : world :=
  {| table := <["u2" := bob]> {["u1" := ana]}; calls := []; drawn := 2;
     backend := one_per_page |}.

(** A key of 2049 bytes. *)
Fixpoint repeat_char (c : ascii) (n : nat) : string :=
  match n with
  | O => EmptyString
  | S n' => String c (repeat_char c n')
  end.
Definition long_id : string := repeat_char "a" 2049.
Definition long_id_params : gmap string string := {["user_id" := long_id]}.
Definition get_long_id : event :=
  request "GET" ("/users/" +:+ long_id) (Present long_id_params) Null.
Definition delete_long_id : event :=
  request "DELETE" ("/users/" +:+ long_id) (Present long_id_params) Null.
Definition put_long_id : event :=
  request "PUT" ("/users/" +:+ long_id) (Present long_id_params) (Present ana_text).
(** * Properties *)

(** ** Outputs of [json.dumps], spelled out *)

Example encode_string_plain : encode_string "error" = quoted "error".
Proof. reflexivity. Qed.

Example error_body_text :
  body (error_response 404 "User not found")
  = "{" +:+ quoted "error" +:+ ": " +:+ quoted "User not found" +:+ "}".
Proof. reflexivity. Qed.

Example json_dumps_nested :
  json_dumps (JArr [JObj [("n", JInt (-12)); ("ok", JBool true)]; JNull; JStr (String backslash "x")])
  = "[{" +:+ encode_string "n" +:+ ": -12, " +:+ encode_string "ok" +:+ ": true}, null, "
        +:+ String dquote (String backslash (String backslash ("x" +:+ String dquote ""))) +:+ "]".
Proof. reflexivity. Qed.

Example str_uuid_sample :
  str_uuid 0x12345678123456781234567812345678%N = "12345678-1234-5678-1234-567812345678".
Proof. reflexivity. Qed.

(** ** Strings *)

Lemma app_nil (t : string) : "" +:+ t = t.
Proof. reflexivity. Qed.

Lemma app_cons (c : ascii) (s t : string) : String c s +:+ t = String c (s +:+ t).
Proof. reflexivity. Qed.

Lemma string_app_length (s t : string) :
  String.length (s +:+ t) = (String.length s + String.length t)%nat.
Proof.
  induction s as [|c s IH]; [done|].
  rewrite app_cons. cbn [String.length]. by rewrite IH.
Qed.

(** Two concatenations that agree and whose left parts are as long agree
    part by part. *)
Lemma string_app_inj (s1 s2 t1 t2 : string) :
  String.length s1 = String.length s2 ->
  s1 +:+ t1 = s2 +:+ t2 -> s1 = s2 /\ t1 = t2.
Proof.
  revert s2. induction s1 as [|c s1 IH]; intros [|c' s2] Hlen Happ; try discriminate Hlen.
  - done.
  - injection Hlen as Hlen. rewrite !app_cons in Happ. injection Happ as -> Happ.
    destruct (IH _ Hlen Happ) as [-> ->]. done.
Qed.

Lemma substring_app (s : string) (n m k : nat) :
  String.substring n m s +:+ String.substring (n + m) k s = String.substring n (m + k) s.
Proof.
  revert n m. induction s as [|c s IH]; intros [|n] [|m]; cbn [String.substring Nat.add].
  - by destruct k.
  - by destruct k.
  - by destruct k.
  - by destruct k.
  - done.
  - rewrite app_cons. by rewrite <- (IH 0%nat m).
  - apply (IH n 0%nat).
  - apply (IH n (S m)).
Qed.

Lemma substring_all (s : string) : String.substring 0 (String.length s) s = s.
Proof. induction s as [|c s IH]; cbn; [done | by rewrite IH]. Qed.

Lemma substring_length (s : string) (n m : nat) :
  (n + m <= String.length s)%nat -> String.length (String.substring n m s) = m.
Proof.
  revert n m. induction s as [|c s IH]; intros [|n] [|m]; cbn; intros H; try lia.
  - rewrite (IH 0%nat m); lia.
  - apply IH. lia.
  - apply IH. lia.
Qed.

(** ** Hexadecimal digits and identifiers *)

Lemma hex_fixed_length (k : nat) (v : N) : String.length (hex_fixed k v) = k.
Proof.
  revert v. induction k as [|k IH]; intros v; cbn [hex_fixed]; [done|].
  rewrite string_app_length, IH. cbn. lia.
Qed.

Lemma hex_digit_inj (a b : N) :
  (a < 16)%N -> (b < 16)%N -> hex_digit a = hex_digit b -> a = b.
Proof.
  intros Ha Hb.
  assert (Hcases : forall x, (x < 16)%N ->
            x = 0%N \/ x = 1%N \/ x = 2%N \/ x = 3%N \/ x = 4%N \/ x = 5%N \/ x = 6%N \/ x = 7%N \/
            x = 8%N \/ x = 9%N \/ x = 10%N \/ x = 11%N \/ x = 12%N \/ x = 13%N \/ x = 14%N \/
            x = 15%N) by (intros; lia).
  destruct (Hcases a Ha) as [->|[->|[->|[->|[->|[->|[->|[->|[->|[->|[->|[->|[->|[->|[->| ->]]]]]]]]]]]]]]];
  destruct (Hcases b Hb) as [->|[->|[->|[->|[->|[->|[->|[->|[->|[->|[->|[->|[->|[->|[->| ->]]]]]]]]]]]]]]];
  cbn; intros H; first [reflexivity | discriminate H].
Qed.

(** The digits determine the value below [16 ^ k]. *)
Lemma hex_fixed_inj (k : nat) (v v' : N) :
  hex_fixed k v = hex_fixed k v' -> (v mod 16 ^ N.of_nat k = v' mod 16 ^ N.of_nat k)%N.
Proof.
  revert v v'. induction k as [|k IH]; intros v v' H.
  - cbn. by rewrite !N.mod_1_r.
  - cbn [hex_fixed] in H.
    apply string_app_inj in H as [Hhi Hlo]; [|by rewrite !hex_fixed_length].
    injection Hlo as Hlo.
    apply hex_digit_inj in Hlo; [|by apply N.mod_lt..].
    apply IH in Hhi.
    rewrite Nat2N.inj_succ, N.pow_succ_r'.
    rewrite !N.Div0.mod_mul_r. by rewrite Hhi, Hlo.
Qed.

Lemma str_uuid_hex (v : N) :
  exists a b c d e,
    str_uuid v = a +:+ "-" +:+ b +:+ "-" +:+ c +:+ "-" +:+ d +:+ "-" +:+ e
    /\ String.length a = 8%nat /\ String.length b = 4%nat /\ String.length c = 4%nat
    /\ String.length d = 4%nat
    /\ hex_fixed 32 v = a +:+ b +:+ c +:+ d +:+ e.
Proof.
  set (hex := hex_fixed 32 v).
  assert (Hlen : String.length hex = 32%nat) by apply hex_fixed_length.
  exists (String.substring 0 8 hex), (String.substring 8 4 hex), (String.substring 12 4 hex),
         (String.substring 16 4 hex), (String.substring 20 12 hex).
  split; [reflexivity|].
  do 4 (split; [apply substring_length; lia|]).
  pose proof (substring_app hex 16 4 12) as H1.
  pose proof (substring_app hex 12 4 16) as H2.
  pose proof (substring_app hex 8 4 20) as H3.
  pose proof (substring_app hex 0 8 24) as H4.
  cbn [Nat.add] in H1, H2, H3, H4.
  rewrite H1, H2, H3, H4, <- Hlen. symmetry. apply substring_all.
Qed.

(** An identifier is never the empty string. *)
Lemma str_uuid_nonempty (v : N) : str_uuid v <> "".
Proof.
  destruct (str_uuid_hex v) as (a & b & c & d & e & -> & Ha & _).
  destruct a; [discriminate Ha | discriminate].
Qed.

(** Distinct 128-bit values print as distinct identifiers. *)
Lemma str_uuid_inj (v v' : N) :
  str_uuid v = str_uuid v' -> (v mod 2 ^ 128 = v' mod 2 ^ 128)%N.
Proof.
  intros H.
  destruct (str_uuid_hex v) as (a & b & c & d & e & Hv & Ha & Hb & Hc & Hd & Hhex).
  destruct (str_uuid_hex v') as (a' & b' & c' & d' & e' & Hv' & Ha' & Hb' & Hc' & Hd' & Hhex').
  rewrite Hv, Hv' in H.
  apply string_app_inj in H as [-> H]; [|congruence].
  apply (string_app_inj "-" "-") in H as [_ H]; [|done].
  apply string_app_inj in H as [-> H]; [|congruence].
  apply (string_app_inj "-" "-") in H as [_ H]; [|done].
  apply string_app_inj in H as [-> H]; [|congruence].
  apply (string_app_inj "-" "-") in H as [_ H]; [|done].
  apply string_app_inj in H as [-> H]; [|congruence].
  apply (string_app_inj "-" "-") in H as [_ ->]; [|done].
  rewrite <- Hhex' in Hhex. apply hex_fixed_inj in Hhex.
  change (16 ^ N.of_nat 32)%N with (2 ^ 128)%N in Hhex. exact Hhex.
Qed.

Lemma hex_fixed_mod (k : nat) (v v' : N) :
  (v mod 16 ^ N.of_nat k = v' mod 16 ^ N.of_nat k)%N -> hex_fixed k v = hex_fixed k v'.
Proof.
  revert v v'. induction k as [|k IH]; intros v v' H; [done|].
  rewrite Nat2N.inj_succ, N.pow_succ_r', !N.Div0.mod_mul_r in H.
  assert (Hlo : (v mod 16 = v' mod 16)%N).
  { apply (f_equal (fun x => x mod 16)%N) in H.
    rewrite !(N.mul_comm 16), !N.Div0.mod_add, !N.Div0.mod_mod in H. exact H. }
  assert (Hhi : ((v / 16) mod 16 ^ N.of_nat k = (v' / 16) mod 16 ^ N.of_nat k)%N).
  { rewrite Hlo in H. apply N.add_cancel_l in H. by apply N.mul_cancel_l in H. }
  cbn [hex_fixed]. by rewrite (IH _ _ Hhi), Hlo.
Qed.

(** Two values give the same identifier exactly when they agree on their
    128 low bits. *)
Lemma str_uuid_eq (v v' : N) :
  str_uuid v = str_uuid v' <-> (v mod 2 ^ 128 = v' mod 2 ^ 128)%N.
Proof.
  split; [apply str_uuid_inj|].
  intros H. unfold str_uuid. by rewrite (hex_fixed_mod 32 v v' H).
Qed.

(** The identifier is printed as it is between the quotes. *)
Lemma verbatim_encode (s : string) : verbatim s -> encode_string s = quoted s.
Proof.
  intros H. unfold encode_string, quoted. f_equal. f_equal.
  induction s as [|c s IH]; [done|].
  cbn [escape_chars]. rewrite (H 0%nat c eq_refl), IH; [done|].
  intros n c' Hn. by apply (H (S n)).
Qed.

Lemma verbatim_app (a b : string) : verbatim a -> verbatim b -> verbatim (a +:+ b).
Proof.
  intros Ha Hb n c Hn.
  destruct (Nat.lt_ge_cases n (String.length a)) as [Hlt | Hge].
  - apply (Ha n). by rewrite (String.append_correct1 a b n Hlt).
  - apply (Hb (n - String.length a)%nat).
    rewrite (String.append_correct2 a b (n - String.length a)).
    by replace (n - String.length a + String.length a)%nat with n by lia.
Qed.

Lemma verbatim_substring (n m : nat) (s : string) :
  verbatim s -> verbatim (String.substring n m s).
Proof.
  intros H p c Hp.
  destruct (Nat.lt_ge_cases p m) as [Hlt | Hge].
  - apply (H (p + n)%nat). by rewrite <- (String.substring_correct1 s n m p Hlt).
  - by rewrite (String.substring_correct2 s n m p Hge) in Hp.
Qed.

Lemma verbatim_hex_fixed (k : nat) (v : N) : verbatim (hex_fixed k v).
Proof.
  revert v. induction k as [|k IH]; intros v; [by intros [|n] c|].
  cbn [hex_fixed]. apply verbatim_app; [apply IH|].
  intros [|n] c; [|by destruct n]. intros [= <-].
  generalize (v mod 16)%N. intros d. unfold hex_digit.
  destruct d as [|p]; [reflexivity|].
  do 4 (try destruct p as [p|p|]); reflexivity.
Qed.

Lemma verbatim_str_uuid (v : N) : verbatim (str_uuid v).
Proof.
  assert (Hdash : verbatim "-") by (intros [|[|n]] c; [by intros [= <-] | done | done]).
  unfold str_uuid. cbv zeta.
  repeat first [exact Hdash | apply verbatim_hex_fixed | apply verbatim_substring
               | apply verbatim_app].
Qed.

(** ** Dictionaries *)

Lemma dict_mem_get {A} (k : string) (d : list (string * A)) (v : A) :
  Dict.get k d = Some v -> Dict.mem k d = true.
Proof. unfold Dict.mem. by intros ->. Qed.

Lemma dict_get_set_eq {A} (k : string) (v : A) (d : list (string * A)) :
  Dict.get k (Dict.set k v d) = Some v.
Proof.
  induction d as [|[k' v'] d IH]; cbn.
  - by rewrite String.eqb_refl.
  - destruct (String.eqb k k') eqn:E; cbn; rewrite ?E, ?String.eqb_refl; [done | exact IH].
Qed.

Lemma dict_get_set_ne {A} (k k' : string) (v : A) (d : list (string * A)) :
  k <> k' -> Dict.get k (Dict.set k' v d) = Dict.get k d.
Proof.
  intros Hne. apply String.eqb_neq in Hne.
  induction d as [|[k0 v0] d IH]; cbn.
  - by rewrite Hne.
  - destruct (String.eqb k' k0) eqn:E; cbn.
    + apply String.eqb_eq in E as <-. by rewrite Hne.
    + by rewrite IH.
Qed.

(** Writing the value a key already holds changes nothing. *)
Lemma dict_set_same {A} (k : string) (v : A) (d : list (string * A)) :
  Dict.get k d = Some v -> Dict.set k v d = d.
Proof.
  induction d as [|[k' v'] d IH]; cbn; [discriminate|].
  destruct (String.eqb k k') eqn:E.
  - apply String.eqb_eq in E as <-. by intros [= ->].
  - intros H. by rewrite IH.
Qed.

(** The attribute-level overwrite of [update_item], done twice, is done once. *)
Lemma dict_set_pair_idem (name email : json) (d : item) :
  Dict.set "email" email (Dict.set "name" name (Dict.set "email" email (Dict.set "name" name d)))
  = Dict.set "email" email (Dict.set "name" name d).
Proof.
  set (d' := Dict.set "email" email (Dict.set "name" name d)).
  assert (Hn : Dict.get "name" d' = Some name).
  { unfold d'. rewrite dict_get_set_ne by discriminate. apply dict_get_set_eq. }
  rewrite (dict_set_same "name" name d' Hn).
  apply dict_set_same. apply dict_get_set_eq.
Qed.

(** ** Values on their way into the table and back *)

Lemma json_induction (P : json -> Prop) :
  P JNull -> (forall b, P (JBool b)) -> (forall z, P (JInt z)) -> (forall r, P (JFloat r)) ->
  (forall s, P (JStr s)) ->
  (forall l, Forall P l -> P (JArr l)) ->
  (forall d, Forall (fun kv => P (snd kv)) d -> P (JObj d)) ->
  forall v, P v.
Proof.
  intros Hnull Hbool Hint Hfloat Hstr Harr Hobj.
  fix IH 1. intros [ | b | z | r | s | l | d].
  - exact Hnull.
  - apply Hbool.
  - apply Hint.
  - apply Hfloat.
  - apply Hstr.
  - apply Harr. revert l. fix IHl 1. intros [|v l]; constructor; [apply IH | apply IHl].
  - apply Hobj. revert d. fix IHd 1. intros [|[k v] d]; constructor; [apply IH | apply IHd].
Qed.

(** A value without numbers is one boto3 serializes. *)
Lemma plain_storable (v : json) : plain v -> storable v.
Proof.
  unfold plain, storable.
  induction v as [ | b | z | r | s | l IH | d IH] using json_induction; try done.
  - change (existsb has_number l = false -> first_error (map refused l) = None).
    induction IH as [|v l Hv _ IHl]; [done|].
    cbn [existsb map first_error fold_right].
    intros [H1 H2]%orb_false_elim. rewrite (Hv H1). exact (IHl H2).
  - change (existsb (fun kv => has_number (snd kv)) d = false
            -> first_error (map (fun kv => refused (snd kv)) d) = None).
    induction IH as [|[k v] d Hv _ IHd]; [done|].
    cbn [existsb map first_error fold_right snd] in *.
    intros [H1 H2]%orb_false_elim. rewrite (Hv H1). exact (IHd H2).
Qed.

Lemma utf8_length_bound (s : string) : (utf8_length s <= 2 * String.length s)%nat.
Proof.
  induction s as [|c s IH]; cbn [utf8_length String.length]; [lia|].
  destruct (N_of_ascii c <? 128)%N; lia.
Qed.

Lemma str_uuid_length (v : N) : String.length (str_uuid v) = 36%nat.
Proof.
  destruct (str_uuid_hex v) as (a & b & c & d & e & -> & Ha & Hb & Hc & Hd & Hhex).
  pose proof (hex_fixed_length 32 v) as Hlen. rewrite Hhex in Hlen.
  rewrite !string_app_length in Hlen. rewrite !string_app_length. cbn [String.length]. lia.
Qed.

(** An identifier is a key the service takes. *)
Lemma str_uuid_key_ok (v : N) : key_ok (str_uuid v).
Proof.
  split; [apply str_uuid_nonempty|].
  pose proof (utf8_length_bound (str_uuid v)) as H. rewrite str_uuid_length in H. lia.
Qed.

Lemma check_key_ok {A} (operation key : string) (k : M A) :
  key_ok key -> check_key operation key k = k.
Proof.
  intros [Hne Hlen]. unfold check_key.
  apply String.eqb_neq in Hne. rewrite Hne.
  destruct (Nat.ltb_spec 2048 (utf8_length key)); [lia | done].
Qed.

(** ** One request to the table *)

Lemma put_item_ok (it : item) (key : string) (w : world) :
  storable (JObj it) -> Dict.get "user_id" it = Some (JStr key) -> key_ok key ->
  served w (PutItem it) ->
  Table.put_item it w
  = (inr tt, after w (PutItem it) (<[key := Dict.remove "user_id" it]> (table w))).
Proof.
  intros Hs Hk Hkey Hserved. unfold Table.put_item, bind, serialize, send.
  rewrite Hs. cbn. rewrite Hserved, Hk, (check_key_ok _ _ _ Hkey). reflexivity.
Qed.

Lemma get_item_ok (key : string) (w : world) :
  key_ok key -> served w (GetItem key) ->
  Table.get_item key w
  = (inr (with_key key <$> table w !! key), after w (GetItem key) (table w)).
Proof.
  intros Hkey Hserved. unfold Table.get_item, send.
  rewrite Hserved, (check_key_ok _ _ _ Hkey). reflexivity.
Qed.

Lemma scan_ok (w : world) :
  served w Scan ->
  Table.scan w = (inr (scan_page (backend w) (table w)), after w Scan (table w)).
Proof. intros Hserved. unfold Table.scan, send. by rewrite Hserved. Qed.

Lemma update_item_ok (key : string) (name email : json) (w : world) :
  storable name -> storable email -> key_ok key ->
  served w (UpdateItem key name email) ->
  Table.update_item key name email w
  = (inr tt,
     after w (UpdateItem key name email)
       (<[key := Dict.set "email" email (Dict.set "name" name (default [] (table w !! key)))]>
          (table w))).
Proof.
  intros Hn He Hkey Hserved. unfold Table.update_item, bind, serialize, send.
  cbn [refused map snd first_error fold_right]. rewrite Hn, He. cbn.
  rewrite Hserved, (check_key_ok _ _ _ Hkey). reflexivity.
Qed.

Lemma delete_item_ok (key : string) (w : world) :
  key_ok key -> served w (DeleteItem key) ->
  Table.delete_item key w = (inr tt, after w (DeleteItem key) (delete key (table w))).
Proof.
  intros Hkey Hserved. unfold Table.delete_item, send.
  rewrite Hserved, (check_key_ok _ _ _ Hkey). reflexivity.
Qed.

(** A request the service fails raises [ClientError] and changes nothing
    but the record of requests. *)
Lemma send_failed {A} (c : call) (k : M A) (w : world) (msg : string) :
  fails (backend w) (length (calls w)) c = Some msg ->
  send c k w = (inl (ClientError msg), after w c (table w)).
Proof. intros H. unfold send. by rewrite H. Qed.

Lemma key_ok_checked (key : string) :
  String.eqb key "" = false -> (utf8_length key <=? 2048)%nat = true -> key_ok key.
Proof.
  intros Hne Hlen. split.
  - by apply String.eqb_neq.
  - by apply Nat.leb_le.
Qed.

(** What the serializer raises is a [TypeError] or a signal of [decimal]. *)
Lemma refused_kind (v : json) (e : exn) :
  refused v = Some e ->
  (exists msg, e = TypeError msg) \/ (exists msg, e = ArithmeticError msg).
Proof.
  set (kind := fun e : exn =>
                 (exists msg, e = TypeError msg) \/ (exists msg, e = ArithmeticError msg)).
  change (refused v = Some e -> kind e). revert e.
  induction v as [ | b | z | r | s | l IH | d IH] using json_induction;
    intros e; try discriminate.
  - cbn. destruct (Z.abs z <? decimal_limit); [discriminate|]. intros [= <-]. right. eauto.
  - cbn. intros [= <-]. left. eauto.
  - change (first_error (map refused l) = Some e -> kind e).
    induction IH as [|v l Hv _ IHl]; [discriminate|].
    cbn [map first_error fold_right].
    destruct (refused v) as [e'|] eqn:Ev; [intros [= <-]; by apply Hv | exact IHl].
  - change (first_error (map (fun kv => refused (snd kv)) d) = Some e -> kind e).
    induction IH as [|[k v] d Hv _ IHd]; [discriminate|].
    cbn [map first_error fold_right snd] in *.
    destruct (refused v) as [e'|] eqn:Ev; [intros [= <-]; by apply Hv | exact IHd].
Qed.

(** The outcomes of a request: boto3 refuses a value and nothing is sent;
    the request is sent and fails; or it is served. *)
Lemma check_key_cases {A} (operation key : string) (k : M A) (w : world) :
  (exists msg, check_key operation key k w = (inl (ClientError msg), w))
  \/ (key_ok key /\ check_key operation key k w = k w).
Proof.
  unfold check_key, key_ok, validation_error, raise.
  destruct (String.eqb_spec key ""); [left; eauto|].
  destruct (Nat.ltb_spec 2048 (utf8_length key)); [left; eauto | right; done].
Qed.

Lemma send_cases {A} (c : call) (k : M A) (w : world) :
  (exists msg, send c k w = (inl (ClientError msg), after w c (table w)))
  \/ (served w c /\ send c k w = k (after w c (table w))).
Proof.
  unfold send, served, after.
  destruct (fails (backend w) (length (calls w)) c); [left; eauto | right; done].
Qed.

Lemma put_item_cases (it : item) (key : string) (w : world) :
  Dict.get "user_id" it = Some (JStr key) ->
  (exists e, refused (JObj it) = Some e /\ Table.put_item it w = (inl e, w))
  \/ (exists msg, Table.put_item it w = (inl (ClientError msg), after w (PutItem it) (table w)))
  \/ (storable (JObj it) /\ key_ok key /\ served w (PutItem it)
      /\ Table.put_item it w
         = (inr tt, after w (PutItem it) (<[key := Dict.remove "user_id" it]> (table w)))).
Proof.
  intros Hk. unfold Table.put_item, bind, serialize, storable.
  destruct (refused (JObj it)) as [e|] eqn:Er; [left; eauto|]. right. cbn [ret].
  match goal with |- context [send ?c ?k w] =>
    destruct (send_cases c k w) as [(msg & ->) | (Hserved & ->)]; [left; eauto|] end.
  rewrite Hk.
  match goal with |- context [check_key ?o key ?k ?w'] =>
    destruct (check_key_cases o key k w') as [(msg & ->) | (Hkey & ->)]; [left; eauto|] end.
  right. done.
Qed.

Lemma update_item_cases (key : string) (name email : json) (w : world) :
  (exists e, ((exists msg, e = TypeError msg) \/ (exists msg, e = ArithmeticError msg))
             /\ Table.update_item key name email w = (inl e, w))
  \/ (exists msg, Table.update_item key name email w
                  = (inl (ClientError msg), after w (UpdateItem key name email) (table w)))
  \/ (storable name /\ storable email /\ key_ok key /\ served w (UpdateItem key name email)
      /\ Table.update_item key name email w
         = (inr tt,
            after w (UpdateItem key name email)
              (<[key := Dict.set "email" email
                          (Dict.set "name" name (default [] (table w !! key)))]> (table w)))).
Proof.
  unfold Table.update_item, bind, serialize, storable.
  cbn [refused map snd first_error fold_right].
  destruct (refused name) as [e|] eqn:En.
  { left. exists e. split; [by apply (refused_kind name) | done]. }
  destruct (refused email) as [e|] eqn:Ee.
  { left. exists e. split; [by apply (refused_kind email) | done]. }
  right. cbn [ret].
  match goal with |- context [send ?c ?k w] =>
    destruct (send_cases c k w) as [(msg & ->) | (Hserved & ->)]; [left; eauto|] end.
  match goal with |- context [check_key ?o key ?k ?w'] =>
    destruct (check_key_cases o key k w') as [(msg & ->) | (Hkey & ->)]; [left; eauto|] end.
  right. done.
Qed.

Lemma delete_item_cases (key : string) (w : world) :
  (exists msg, Table.delete_item key w
               = (inl (ClientError msg), after w (DeleteItem key) (table w)))
  \/ (key_ok key /\ served w (DeleteItem key)
      /\ Table.delete_item key w = (inr tt, after w (DeleteItem key) (delete key (table w)))).
Proof.
  unfold Table.delete_item.
  match goal with |- context [send ?c ?k w] =>
    destruct (send_cases c k w) as [(msg & ->) | (Hserved & ->)]; [left; eauto|] end.
  match goal with |- context [check_key ?o key ?k ?w'] =>
    destruct (check_key_cases o key k w') as [(msg & ->) | (Hkey & ->)]; [left; eauto|] end.
  right. done.
Qed.

Lemma get_item_cases (key : string) (w : world) :
  (exists msg, Table.get_item key w = (inl (ClientError msg), after w (GetItem key) (table w)))
  \/ (key_ok key /\ served w (GetItem key)
      /\ Table.get_item key w
         = (inr (with_key key <$> table w !! key), after w (GetItem key) (table w))).
Proof.
  unfold Table.get_item.
  match goal with |- context [send ?c ?k w] =>
    destruct (send_cases c k w) as [(msg & ->) | (Hserved & ->)]; [left; eauto|] end.
  match goal with |- context [check_key ?o key ?k ?w'] =>
    destruct (check_key_cases o key k w') as [(msg & ->) | (Hkey & ->)]; [left; eauto|] end.
  right. done.
Qed.

Lemma scan_cases (w : world) :
  (exists msg, Table.scan w = (inl (ClientError msg), after w Scan (table w)))
  \/ (served w Scan
      /\ Table.scan w = (inr (scan_page (backend w) (table w)), after w Scan (table w))).
Proof.
  unfold Table.scan.
  match goal with |- context [send ?c ?k w] =>
    destruct (send_cases c k w) as [(msg & ->) | (Hserved & ->)]; [left; eauto|] end.
  right. done.
Qed.

(** ** One step of each handler *)

Section Steps.
Variable json_loads : string -> option json.
Variable uuid4 : nat -> N.

Lemma prefix_users_not_health (p : string) :
  String.prefix USERS_PATH p = true -> String.eqb p HEALTH_PATH = false.
Proof.
  unfold USERS_PATH, HEALTH_PATH.
  destruct p as [|c1 [|c2 p]]; cbn [String.prefix]; try done.
  - destruct (ascii_dec "/" c1); intros H; discriminate H.
  - destruct (ascii_dec "/" c1) as [<-|]; [|intros H; discriminate H].
    destruct (ascii_dec "u" c2) as [<-|]; [|intros H; discriminate H]. done.
Qed.


Lemma route_create (ev : event) :
  Event.httpMethod ev = Some "POST" -> Event.path ev = Some USERS_PATH ->
  route json_loads uuid4 ev = create_user json_loads uuid4 ev.
Proof. unfold route. by intros -> ->. Qed.

Lemma route_read (ev : event) (p : string) :
  Event.httpMethod ev = Some "GET" -> Event.path ev = Some p ->
  String.prefix USERS_PATH p = true ->
  route json_loads uuid4 ev = get_user ev.
Proof.
  unfold route. intros -> -> Hp. cbn.
  by rewrite (prefix_users_not_health p Hp), Hp.
Qed.

Lemma route_update (ev : event) (p : string) :
  Event.httpMethod ev = Some "PUT" -> Event.path ev = Some p ->
  String.prefix USERS_PATH p = true ->
  route json_loads uuid4 ev = update_user json_loads ev.
Proof. unfold route. intros -> -> Hp. cbn. by rewrite Hp. Qed.

Lemma route_delete (ev : event) (p : string) :
  Event.httpMethod ev = Some "DELETE" -> Event.path ev = Some p ->
  String.prefix USERS_PATH p = true ->
  route json_loads uuid4 ev = delete_user ev.
Proof. unfold route. intros -> -> Hp. cbn. by rewrite Hp. Qed.

(** The body of [create_user] once the body of the event is decoded to an
    object with both keys. *)
Lemma create_user_put (ev : event) (w : world) (s : string) (d : list (string * json))
    (name email : json) :
  Event.body ev = Present s -> json_loads s = Some (JObj d) ->
  Dict.get "name" d = Some name -> Dict.get "email" d = Some email ->
  let user_id := str_uuid (uuid4 (drawn w)) in
  create_user json_loads uuid4 ev w
  = except_backend
      (bind (Table.put_item (record user_id name email))
         (fun _ => ret (success_response (JObj (record user_id name email)) 201)))
      {| table := table w; calls := calls w; drawn := S (drawn w); backend := backend w |}.
Proof.
  intros Hb Hl Hn He user_id.
  unfold create_user, except_backend, bind, event_body, loads, missing_fields, bind, contains.
  rewrite Hb. cbn. rewrite Hl. cbn.
  rewrite (dict_mem_get _ _ _ Hn), (dict_mem_get _ _ _ He). cbn.
  rewrite Hn, He. reflexivity.
Qed.

Lemma create_user_ok (ev : event) (w : world) (s : string) (d : list (string * json))
    (name email : json) :
  Event.body ev = Present s -> json_loads s = Some (JObj d) ->
  Dict.get "name" d = Some name -> Dict.get "email" d = Some email ->
  storable name -> storable email ->
  let user_id := str_uuid (uuid4 (drawn w)) in
  served w (PutItem (record user_id name email)) ->
  create_user json_loads uuid4 ev w
  = (inr (success_response (JObj (record user_id name email)) 201),
     {| table := <[user_id := [("name", name); ("email", email)]]> (table w);
        calls := calls w ++ [PutItem (record user_id name email)];
        drawn := S (drawn w); backend := backend w |}).
Proof.
  intros Hb Hl Hn He Hsn Hse user_id Hserved.
  rewrite (create_user_put ev w s d name email Hb Hl Hn He). fold user_id.
  unfold except_backend, bind.
  rewrite (put_item_ok (record user_id name email) user_id).
  - reflexivity.
  - unfold storable in *. cbn [refused map snd first_error fold_right record].
    by rewrite Hsn, Hse.
  - reflexivity.
  - apply str_uuid_key_ok.
  - exact Hserved.
Qed.

Lemma create_user_missing (ev : event) (w : world) (s : string) (d : list (string * json)) :
  Event.body ev = Present s -> json_loads s = Some (JObj d) ->
  Dict.mem "name" d = false \/ Dict.mem "email" d = false ->
  create_user json_loads uuid4 ev w
  = (inr (error_response 400 "Missing required fields: name, email"), w).
Proof.
  intros Hb Hl Hmiss.
  unfold create_user, except_backend, bind, event_body, loads, missing_fields, bind, contains.
  rewrite Hb. cbn. rewrite Hl. cbn.
  destruct Hmiss as [-> | ->]; [done|].
  by destruct (Dict.mem "name" d).
Qed.

Lemma create_user_bad_json (ev : event) (w : world) (s : string) :
  Event.body ev = Present s -> json_loads s = None ->
  create_user json_loads uuid4 ev w = (inl JSONDecodeError, w).
Proof.
  intros Hb Hl. unfold create_user, except_backend, bind, event_body, loads.
  rewrite Hb. cbn. by rewrite Hl.
Qed.

Lemma create_user_null_body (ev : event) (w : world) :
  Event.body ev = Null ->
  create_user json_loads uuid4 ev w
  = (inl (TypeError "the JSON object must be str, bytes or bytearray, not NoneType"), w).
Proof.
  intros Hb. unfold create_user, except_backend, bind, event_body, loads. by rewrite Hb.
Qed.

Lemma create_user_no_body (ev : event) (w : world) :
  Event.body ev = Absent ->
  create_user json_loads uuid4 ev w = (inl (KeyError "body"), w).
Proof.
  intros Hb. unfold create_user, except_backend, bind, event_body. by rewrite Hb.
Qed.

(** ** Read *)

(** The body of [get_user] once it has a non-empty identifier. *)
Lemma get_user_get (ev : event) (w : world) (params : gmap string string) (user_id : string) :
  Event.pathParameters ev = Present params -> params !! "user_id" = Some user_id ->
  user_id <> "" ->
  get_user ev w
  = except_backend
      (bind (Table.get_item user_id) (fun user =>
         match user with
         | None | Some [] => ret (error_response 404 "User not found")
         | Some user => success_response_read (JObj user) 200
         end)) w.
Proof.
  intros Hp Hu Hne.
  unfold get_user, except_backend, bind at 1, params_user_id, event_path_params.
  rewrite Hp. cbn. rewrite Hu.
  destruct user_id as [|c u]; [done|]. reflexivity.
Qed.

Lemma get_user_one (ev : event) (w : world) (params : gmap string string) (user_id : string) :
  Event.pathParameters ev = Present params -> params !! "user_id" = Some user_id ->
  key_ok user_id -> served w (GetItem user_id) ->
  get_user ev w
  = (match table w !! user_id with
     | Some attrs =>
         if has_number (JObj (with_key user_id attrs))
         then inl (TypeError "Object of type Decimal is not JSON serializable")
         else inr (success_response (JObj (with_key user_id attrs)) 200)
     | None => inr (error_response 404 "User not found")
     end,
     after w (GetItem user_id) (table w)).
Proof.
  intros Hp Hu Hkey Hserved.
  rewrite (get_user_get ev w params user_id Hp Hu (proj1 Hkey)).
  unfold except_backend, bind. rewrite (get_item_ok user_id w Hkey Hserved).
  destruct (table w !! user_id) as [attrs|]; cbn [fmap option_fmap option_map]; [|done].
  unfold success_response_read, with_key.
  destruct (has_number (JObj (("user_id", JStr user_id) :: attrs))); reflexivity.
Qed.

Lemma get_user_failed (ev : event) (w : world) (params : gmap string string)
    (user_id msg : string) :
  Event.pathParameters ev = Present params -> params !! "user_id" = Some user_id ->
  user_id <> "" ->
  fails (backend w) (length (calls w)) (GetItem user_id) = Some msg ->
  get_user ev w
  = (inr (error_response 500 ("DynamoDB error: " +:+ msg)), after w (GetItem user_id) (table w)).
Proof.
  intros Hp Hu Hne Hfail.
  rewrite (get_user_get ev w params user_id Hp Hu Hne).
  unfold except_backend, bind, Table.get_item. by rewrite (send_failed _ _ w msg Hfail).
Qed.

(** The body of [get_user] without an identifier. *)
Lemma get_user_scan (ev : event) (w : world) :
  no_user_id ev ->
  get_user ev w
  = except_backend
      (except_backend
         (bind Table.scan
            (fun users => success_response_read (JArr (map JObj users)) 200))) w.
Proof.
  unfold get_user, list_all_users, except_backend, bind at 1, params_user_id, event_path_params.
  intros [Hp | (params & Hp & [Hu | Hu])]; rewrite Hp; cbn; rewrite ?Hu; reflexivity.
Qed.

Lemma get_user_list (ev : event) (w : world) :
  no_user_id ev -> served w Scan ->
  get_user ev w
  = (let page := JArr (map JObj (scan_page (backend w) (table w))) in
     if has_number page
     then inl (TypeError "Object of type Decimal is not JSON serializable")
     else inr (success_response page 200),
     after w Scan (table w)).
Proof.
  intros Hno Hserved. rewrite (get_user_scan ev w Hno).
  unfold except_backend, bind. rewrite (scan_ok w Hserved).
  unfold success_response_read. cbv zeta.
  destruct (has_number (JArr (map JObj (scan_page (backend w) (table w))))); reflexivity.
Qed.

Lemma get_user_null_params (ev : event) (w : world) :
  Event.pathParameters ev = Null ->
  get_user ev w = (inl (AttributeError "'NoneType' object has no attribute 'get'"), w).
Proof.
  intros Hp. unfold get_user, except_backend, bind, params_user_id, event_path_params.
  by rewrite Hp.
Qed.

(** ** Update *)

(** The body of [update_user] once it has an identifier and has decoded
    the body of the event. *)
Lemma update_user_body (ev : event) (w : world) (params : gmap string string)
    (user_id s : string) (v : json) :
  Event.pathParameters ev = Present params -> params !! "user_id" = Some user_id ->
  user_id <> "" -> Event.body ev = Present s -> json_loads s = Some v ->
  update_user json_loads ev w
  = except_backend
      (bind (missing_fields v) (fun missing =>
         if missing then ret (error_response 400 "Missing required fields: name, email")
         else
           bind (getitem v "name") (fun name =>
           bind (getitem v "email") (fun email =>
           bind (Table.update_item user_id name email) (fun _ =>
           ret (success_response
                  (JObj [("message", JStr "User updated successfully")]) 200)))))) w.
Proof.
  intros Hp Hu Hne Hb Hl.
  unfold update_user, except_backend, bind at 1 2 3, params_user_id, event_path_params,
    event_body, loads.
  rewrite Hp. cbn. rewrite Hu.
  destruct user_id as [|c u]; [done|]. cbn.
  rewrite Hb. cbn. rewrite Hl. reflexivity.
Qed.

Lemma update_user_update (ev : event) (w : world) (params : gmap string string)
    (user_id s : string) (d : list (string * json)) (name email : json) :
  Event.pathParameters ev = Present params -> params !! "user_id" = Some user_id ->
  user_id <> "" ->
  Event.body ev = Present s -> json_loads s = Some (JObj d) ->
  Dict.get "name" d = Some name -> Dict.get "email" d = Some email ->
  update_user json_loads ev w
  = except_backend
      (bind (Table.update_item user_id name email) (fun _ =>
         ret (success_response (JObj [("message", JStr "User updated successfully")]) 200))) w.
Proof.
  intros Hp Hu Hne Hb Hl Hn He.
  rewrite (update_user_body ev w params user_id s (JObj d) Hp Hu Hne Hb Hl).
  unfold except_backend, missing_fields, bind, contains, getitem. cbn.
  rewrite (dict_mem_get _ _ _ Hn), (dict_mem_get _ _ _ He). cbn.
  rewrite Hn, He. reflexivity.
Qed.

Lemma update_user_ok (ev : event) (w : world) (params : gmap string string)
    (user_id s : string) (d : list (string * json)) (name email : json) :
  Event.pathParameters ev = Present params -> params !! "user_id" = Some user_id ->
  key_ok user_id ->
  Event.body ev = Present s -> json_loads s = Some (JObj d) ->
  Dict.get "name" d = Some name -> Dict.get "email" d = Some email ->
  storable name -> storable email ->
  served w (UpdateItem user_id name email) ->
  update_user json_loads ev w
  = (inr (success_response (JObj [("message", JStr "User updated successfully")]) 200),
     after w (UpdateItem user_id name email)
       (<[user_id := Dict.set "email" email
                       (Dict.set "name" name (default [] (table w !! user_id)))]> (table w))).
Proof.
  intros Hp Hu Hkey Hb Hl Hn He Hsn Hse Hserved.
  rewrite (update_user_update ev w params user_id s d name email Hp Hu (proj1 Hkey) Hb Hl Hn He).
  unfold except_backend, bind.
  by rewrite (update_item_ok user_id name email w Hsn Hse Hkey Hserved).
Qed.


Lemma update_user_bad_json (ev : event) (w : world) (params : gmap string string)
    (user_id s : string) :
  Event.pathParameters ev = Present params -> params !! "user_id" = Some user_id ->
  user_id <> "" ->
  Event.body ev = Present s -> json_loads s = None ->
  update_user json_loads ev w = (inl JSONDecodeError, w).
Proof.
  intros Hp Hu Hne Hb Hl.
  unfold update_user, except_backend, bind, params_user_id, event_path_params,
    event_body, loads.
  rewrite Hp. cbn. rewrite Hu.
  destruct user_id as [|c u]; [done|]. cbn.
  rewrite Hb. cbn. by rewrite Hl.
Qed.

(** ** Delete *)

(** The body of [delete_user] once it has a non-empty identifier. *)
Lemma delete_user_delete (ev : event) (w : world) (params : gmap string string)
    (user_id : string) :
  Event.pathParameters ev = Present params -> params !! "user_id" = Some user_id ->
  user_id <> "" ->
  delete_user ev w
  = except_backend
      (bind (Table.delete_item user_id) (fun _ =>
         ret (success_response
                (JObj [("message", JStr ("User " +:+ user_id +:+ " deleted successfully"))])
                204))) w.
Proof.
  intros Hp Hu Hne.
  unfold delete_user, except_backend, bind at 1, params_user_id, event_path_params.
  rewrite Hp. cbn. rewrite Hu.
  destruct user_id as [|c u]; [done|]. reflexivity.
Qed.

Lemma delete_user_ok (ev : event) (w : world) (params : gmap string string)
    (user_id : string) :
  Event.pathParameters ev = Present params -> params !! "user_id" = Some user_id ->
  key_ok user_id -> served w (DeleteItem user_id) ->
  delete_user ev w
  = (inr (success_response
            (JObj [("message", JStr ("User " +:+ user_id +:+ " deleted successfully"))]) 204),
     after w (DeleteItem user_id) (delete user_id (table w))).
Proof.
  intros Hp Hu Hkey Hserved.
  rewrite (delete_user_delete ev w params user_id Hp Hu (proj1 Hkey)).
  unfold except_backend, bind. by rewrite (delete_item_ok user_id w Hkey Hserved).
Qed.


(** ** Dispatch *)

Lemma route_first_match (ev : event) :
  route json_loads uuid4 ev
  = match first_match (method_of ev) (path_of ev) with
    | Some op => run_operation json_loads uuid4 op ev
    | None => ret (error_response 405 "Method Not Allowed")
    end.
Proof.
  unfold route, first_match, dispatch_table, method_of, path_of.
  cbn [List.find fst snd].
  destruct (String.eqb _ "GET" && String.eqb _ HEALTH_PATH); [done|].
  destruct (String.eqb _ "POST" && String.eqb _ USERS_PATH); [done|].
  destruct (String.eqb _ "GET" && String.prefix USERS_PATH _); [done|].
  destruct (String.eqb _ "PUT" && String.prefix USERS_PATH _); [done|].
  destruct (String.eqb _ "DELETE" && String.prefix USERS_PATH _); done.
Qed.

(** ** Validation comes before the write *)

Lemma missing_fields_pure (v : json) (w : world) : snd (missing_fields v w) = w.
Proof.
  unfold missing_fields, bind, contains, ret, raise.
  destruct v; cbn; try done.
  - by destruct (String.index 0 "name" s).
  - by destruct (existsb _ l).
  - by destruct (Dict.mem "name" d).
Qed.

Lemma create_user_400 (ev : event) (w : world) :
  let out := respond (create_user json_loads uuid4 ev w) in
  (statusCode (fst out) = 400 -> snd out = w) /\ at_most_one_write w (snd out).
Proof.
  unfold at_most_one_write, create_user, except_backend, bind, event_body, loads.
  destruct (Event.body ev) as [| |s]; cbn; try (split; [done | by left]).
  destruct (json_loads s) as [v|]; cbn; [|split; [done | by left]].
  pose proof (missing_fields_pure v w) as Hpure.
  destruct (missing_fields v w) as [[e|[|]] w1]; cbn in Hpure; subst w1.
  - destruct e; cbn; (split; [done | by left]).
  - split; [done | by left].
  - unfold new_uuid, getitem, ret, raise. cbn.
    destruct v; cbn; try (split; [done | by left]).
    destruct (Dict.get "name" d) as [name|]; cbn; [|split; [done | by left]].
    destruct (Dict.get "email" d) as [email|]; cbn; [|split; [done | by left]].
    match goal with |- context [Table.put_item ?it ?w'] =>
      destruct (put_item_cases it _ w' eq_refl)
        as [(e & Hr & ->) | [(msg & ->) | (_ & _ & _ & ->)]] end; cbn.
    + destruct (refused_kind _ _ Hr) as [[m ->] | [m ->]]; cbn; (split; [done | by left]).
    + split; [done | right; eexists; split; [|done]; done].
    + split; [done | right; eexists; split; [|done]; done].
Qed.

Lemma update_user_400 (ev : event) (w : world) :
  let out := respond (update_user json_loads ev w) in
  (statusCode (fst out) = 400 -> snd out = w) /\ at_most_one_write w (snd out).
Proof.
  unfold at_most_one_write, update_user, except_backend, bind, params_user_id, event_body, loads.
  destruct (event_path_params ev) as [params|]; cbn; [|split; [done | by left]].
  destruct (params !! "user_id") as [[|c u]|]; cbn; try (split; [done | by left]).
  destruct (Event.body ev) as [| |s]; cbn; try (split; [done | by left]).
  destruct (json_loads s) as [v|]; cbn; [|split; [done | by left]].
  pose proof (missing_fields_pure v w) as Hpure.
  destruct (missing_fields v w) as [[e|[|]] w1]; cbn in Hpure; subst w1.
  - destruct e; cbn; (split; [done | by left]).
  - split; [done | by left].
  - unfold getitem, ret, raise. cbn.
    destruct v; cbn; try (split; [done | by left]).
    destruct (Dict.get "name" d) as [name|]; cbn; [|split; [done | by left]].
    destruct (Dict.get "email" d) as [email|]; cbn; [|split; [done | by left]].
    match goal with |- context [Table.update_item ?k ?n ?e ?w'] =>
      destruct (update_item_cases k n e w')
        as [(e' & Hkind & ->) | [(msg & ->) | (_ & _ & _ & _ & ->)]] end; cbn.
    + destruct Hkind as [[m ->] | [m ->]]; cbn; (split; [done | by left]).
    + split; [done | right; eexists; split; [|done]; done].
    + split; [done | right; eexists; split; [|done]; done].
Qed.
End Steps.

(** * The claims of the specification *)

Lemma plain_with_key (user_id : string) (attrs : item) :
  has_number (JObj (with_key user_id attrs)) = has_number (JObj attrs).
Proof. reflexivity. Qed.

Lemma dict_get_with_key (user_id k : string) (attrs : item) :
  k <> "user_id" -> Dict.get k (with_key user_id attrs) = Dict.get k attrs.
Proof. intros H. apply String.eqb_neq in H. cbn. by rewrite H. Qed.

(** The text of a created record. *)
Lemma created_body (user_id : string) (name email : json) :
  verbatim user_id ->
  success_response (JObj (record user_id name email)) 201
  = {| statusCode := 201;
       body := "{" +:+ ((quoted "user_id" +:+ ": " +:+ quoted user_id) +:+ ", "
                        +:+ (quoted "name" +:+ ": " +:+ json_dumps name) +:+ ", "
                        +:+ (quoted "email" +:+ ": " +:+ json_dumps email))
                   +:+ "}" |}.
Proof.
  intros H. unfold success_response. f_equal. cbn [json_dumps map join record fst snd].
  by rewrite (verbatim_encode user_id H).
Qed.

Section Claims.
Variable json_loads : string -> option json.
Variable uuid4 : nat -> N.

Local Abbreviation handler := (lambda_handler json_loads uuid4).

(** C1, amended. Round trip: a POST on the users path whose body is an
    object with [name] and [email], neither holding a number, answers 201
    with the record it wrote when the table serves the write; and a GET
    for the [user_id] of that record, made next and served by the table,
    answers 200 with a record of the same [user_id], [name] and [email]. *)
Theorem create_then_get_roundtrip (ev ev' : event) (w : world) (s p : string)
    (d : list (string * json)) (name email : json) (params : gmap string string) :
  Event.httpMethod ev = Some "POST" -> Event.path ev = Some USERS_PATH ->
  Event.body ev = Present s -> json_loads s = Some (JObj d) ->
  Dict.get "name" d = Some name -> Dict.get "email" d = Some email ->
  plain name -> plain email ->
  let user_id := str_uuid (uuid4 (drawn w)) in
  served w (PutItem (record user_id name email)) ->
  Event.httpMethod ev' = Some "GET" -> Event.path ev' = Some p ->
  String.prefix USERS_PATH p = true ->
  Event.pathParameters ev' = Present params -> params !! "user_id" = Some user_id ->
  served (snd (handler ev w)) (GetItem user_id) ->
  fst (handler ev w)
  = {| statusCode := 201;
       body := "{" +:+ ((quoted "user_id" +:+ ": " +:+ quoted user_id) +:+ ", "
                        +:+ (quoted "name" +:+ ": " +:+ json_dumps name) +:+ ", "
                        +:+ (quoted "email" +:+ ": " +:+ json_dumps email))
                   +:+ "}" |}
  /\ exists fetched,
       fst (handler ev' (snd (handler ev w)))
       = {| statusCode := 200; body := json_dumps (JObj fetched) |}
       /\ Dict.get "user_id" fetched = Some (JStr user_id)
       /\ Dict.get "name" fetched = Some name
       /\ Dict.get "email" fetched = Some email.
Proof.
  intros Hm Hp Hb Hl Hn He Hpn Hpe user_id Hput Hm' Hp' Hpre Hpar Hu.
  unfold lambda_handler.
  rewrite (route_create _ _ ev Hm Hp),
          (create_user_ok _ _ ev w s d name email Hb Hl Hn He
             (plain_storable _ Hpn) (plain_storable _ Hpe) Hput).
  cbn [respond fst snd]. intros Hget. split; [apply created_body, verbatim_str_uuid|].
  exists (record user_id name email).
  rewrite (route_read _ _ ev' p Hm' Hp' Hpre),
          (get_user_one ev' _ params user_id Hpar Hu (str_uuid_key_ok _) Hget).
  cbn [table]. fold user_id. rewrite lookup_insert_eq.
  unfold plain in Hpn, Hpe. cbn [has_number existsb with_key snd]. rewrite Hpn, Hpe.
  cbn [orb respond fst]. split; [reflexivity|]. split; [reflexivity|]. split; reflexivity.
Qed.

(** C2, amended. A POST on the users path whose body is an object with
    [name] and [email] that boto3 can serialize (no [float], no integer of
    more than 38 digits) answers 201 when the table serves the write; the
    body is the record written: the [name] and [email] supplied and a new
    [user_id], the text of the value [uuid.uuid4] returned for this call.
    That text is never empty.  The record is written under it: it
    replaces the record of a call for which [uuid4] returned a value with
    the same 128 low bits, and the records of all other identifiers
    [uuid4] gives are as they were. *)
Theorem create_user_created (ev : event) (w : world) (s : string)
    (d : list (string * json)) (name email : json) :
  Event.httpMethod ev = Some "POST" -> Event.path ev = Some USERS_PATH ->
  Event.body ev = Present s -> json_loads s = Some (JObj d) ->
  Dict.get "name" d = Some name -> Dict.get "email" d = Some email ->
  storable name -> storable email ->
  let user_id := str_uuid (uuid4 (drawn w)) in
  served w (PutItem (record user_id name email)) ->
  handler ev w
  = ({| statusCode := 201;
        body := "{" +:+ ((quoted "user_id" +:+ ": " +:+ quoted user_id) +:+ ", "
                         +:+ (quoted "name" +:+ ": " +:+ json_dumps name) +:+ ", "
                         +:+ (quoted "email" +:+ ": " +:+ json_dumps email))
                    +:+ "}" |},
     {| table := <[user_id := [("name", name); ("email", email)]]> (table w);
        calls := calls w ++ [PutItem (record user_id name email)];
        drawn := S (drawn w); backend := backend w |})
  /\ user_id <> ""
  /\ (forall n, table (snd (handler ev w)) !! str_uuid (uuid4 n)
                = if (uuid4 n mod 2 ^ 128 =? uuid4 (drawn w) mod 2 ^ 128)%N
                  then Some [("name", name); ("email", email)]
                  else table w !! str_uuid (uuid4 n)).
Proof.
  intros Hm Hp Hb Hl Hn He Hsn Hse user_id Hput.
  assert (Hout : handler ev w
                 = (success_response (JObj (record user_id name email)) 201,
                    {| table := <[user_id := [("name", name); ("email", email)]]> (table w);
                       calls := calls w ++ [PutItem (record user_id name email)];
                       drawn := S (drawn w); backend := backend w |})).
  { unfold lambda_handler.
    by rewrite (route_create _ _ ev Hm Hp),
               (create_user_ok _ _ ev w s d name email Hb Hl Hn He Hsn Hse Hput). }
  split; [|split].
  - rewrite Hout. f_equal. apply created_body, verbatim_str_uuid.
  - apply str_uuid_nonempty.
  - intros n. rewrite Hout. cbn [snd table].
    destruct (N.eqb_spec (uuid4 n mod 2 ^ 128) (uuid4 (drawn w) mod 2 ^ 128)) as [Heq | Hne].
    + apply str_uuid_eq in Heq. rewrite Heq. apply lookup_insert_eq.
    + apply lookup_insert_ne. intros Heq. apply Hne. symmetry. by apply str_uuid_eq.
Qed.

(** C3. A POST on the users path whose body is an object without the key
    [name] or without the key [email] answers 400 with the body
    [{"error": "Missing required fields: name, email"}], whatever else
    the object holds; nothing is written. *)
Theorem create_user_missing_fields (ev : event) (w : world) (s : string)
    (d : list (string * json)) :
  Event.httpMethod ev = Some "POST" -> Event.path ev = Some USERS_PATH ->
  Event.body ev = Present s -> json_loads s = Some (JObj d) ->
  Dict.mem "name" d = false \/ Dict.mem "email" d = false ->
  handler ev w = (error_response 400 "Missing required fields: name, email", w)
  /\ statusCode (fst (handler ev w)) = 400
  /\ body (fst (handler ev w))
     = "{" +:+ quoted "error" +:+ ": " +:+ quoted "Missing required fields: name, email" +:+ "}".
Proof.
  intros Hm Hp Hb Hl Hmiss.
  assert (H : handler ev w = (error_response 400 "Missing required fields: name, email", w)).
  { unfold lambda_handler.
    by rewrite (route_create _ _ ev Hm Hp), (create_user_missing _ _ ev w s d Hb Hl Hmiss). }
  rewrite H. done.
Qed.

(** C4. What the code does where the claim fails: a GET on the users
    path whose [pathParameters] is [null] is not answered with the
    collection; [path_params.get] raises on [None] and the answer is 500.
    No request reaches the table. *)
Theorem list_users_null_path_parameters (ev : event) (w : world) (p : string) :
  Event.httpMethod ev = Some "GET" -> Event.path ev = Some p ->
  String.prefix USERS_PATH p = true ->
  Event.pathParameters ev = Null ->
  handler ev w
  = (error_response 500 "Internal Server Error: 'NoneType' object has no attribute 'get'", w).
Proof.
  intros Hm Hp Hpre Hnull. unfold lambda_handler.
  by rewrite (route_read _ _ ev p Hm Hp Hpre), (get_user_null_params ev w Hnull).
Qed.

(** C5, amended. A GET on the users path with a [user_id] path parameter
    that is not empty and not longer than 2048 bytes, the table serving the
    read: when the table holds no record under that key the answer is 404
    with [{"error": "User not found"}]; when it holds one without numbers
    the answer is 200 with that record; when it holds one with a number
    the answer is 500. *)
Theorem get_user_by_id (ev : event) (w : world) (p : string)
    (params : gmap string string) (user_id : string) :
  Event.httpMethod ev = Some "GET" -> Event.path ev = Some p ->
  String.prefix USERS_PATH p = true ->
  Event.pathParameters ev = Present params -> params !! "user_id" = Some user_id ->
  key_ok user_id -> served w (GetItem user_id) ->
  (table w !! user_id = None ->
   fst (handler ev w)
   = {| statusCode := 404;
        body := "{" +:+ quoted "error" +:+ ": " +:+ quoted "User not found" +:+ "}" |})
  /\ (forall attrs, table w !! user_id = Some attrs -> plain (JObj attrs) ->
      exists user,
        fst (handler ev w) = {| statusCode := 200; body := json_dumps (JObj user) |}
        /\ forall k, Dict.get k user = Dict.get k (with_key user_id attrs))
  /\ (forall attrs, table w !! user_id = Some attrs -> has_number (JObj attrs) = true ->
      statusCode (fst (handler ev w)) = 500).
Proof.
  intros Hm Hp Hpre Hpar Hu Hkey Hserved. unfold lambda_handler.
  rewrite (route_read _ _ ev p Hm Hp Hpre), (get_user_one ev w params user_id Hpar Hu Hkey Hserved).
  split; [|split].
  - intros ->. reflexivity.
  - intros attrs -> Hplain. exists (with_key user_id attrs).
    unfold plain in Hplain. rewrite plain_with_key, Hplain. split; reflexivity.
  - intros attrs -> Hnum. rewrite plain_with_key, Hnum. reflexivity.
Qed.

(** C6, amended. A PUT on the users path with a [user_id] path parameter
    that is not empty and not longer than 2048 bytes, and a body that is
    an object with [name] and [email] that boto3 can serialize, answers
    200 when the table serves the update; done a second time and served
    again it answers the same and leaves the table as the first left it;
    and a GET for that [user_id] after either, served by the table,
    answers 200 with a record holding the new [name] and [email], provided
    the record holds no number. *)
Theorem update_user_idempotent (ev ev' : event) (w : world) (p p' s : string)
    (params params' : gmap string string) (user_id : string)
    (d : list (string * json)) (name email : json) :
  Event.httpMethod ev = Some "PUT" -> Event.path ev = Some p ->
  String.prefix USERS_PATH p = true ->
  Event.pathParameters ev = Present params -> params !! "user_id" = Some user_id ->
  key_ok user_id ->
  Event.body ev = Present s -> json_loads s = Some (JObj d) ->
  Dict.get "name" d = Some name -> Dict.get "email" d = Some email ->
  storable name -> storable email ->
  Event.httpMethod ev' = Some "GET" -> Event.path ev' = Some p' ->
  String.prefix USERS_PATH p' = true ->
  Event.pathParameters ev' = Present params' -> params' !! "user_id" = Some user_id ->
  let updated :=
    {| statusCode := 200;
       body := "{" +:+ quoted "message" +:+ ": " +:+ quoted "User updated successfully" +:+ "}" |} in
  let stored := Dict.set "email" email (Dict.set "name" name (default [] (table w !! user_id))) in
  let once := snd (handler ev w) in
  let twice := snd (handler ev once) in
  served w (UpdateItem user_id name email) ->
  served once (UpdateItem user_id name email) ->
  fst (handler ev w) = updated
  /\ fst (handler ev once) = updated
  /\ table once !! user_id = Some stored
  /\ table twice = table once
  /\ forall w', w' = once \/ w' = twice ->
       served w' (GetItem user_id) -> plain (JObj stored) ->
       exists user, fst (handler ev' w') = {| statusCode := 200; body := json_dumps (JObj user) |}
                    /\ Dict.get "user_id" user = Some (JStr user_id)
                    /\ Dict.get "name" user = Some name
                    /\ Dict.get "email" user = Some email.
Proof.
  intros Hm Hp Hpre Hpar Hu Hkey Hb Hl Hn He Hsn Hse Hm' Hp' Hpre' Hpar' Hu'
    updated stored once twice.
  assert (Hstep : forall w0, served w0 (UpdateItem user_id name email) ->
            handler ev w0
            = (updated,
               after w0 (UpdateItem user_id name email)
                 (<[user_id := Dict.set "email" email
                                 (Dict.set "name" name (default [] (table w0 !! user_id)))]>
                    (table w0)))).
  { intros w0 Hserved. unfold lambda_handler.
    by rewrite (route_update _ _ ev p Hm Hp Hpre),
               (update_user_ok _ ev w0 params user_id s d name email
                  Hpar Hu Hkey Hb Hl Hn He Hsn Hse Hserved). }
  intros Hfirst.
  assert (Honce : table once = <[user_id := stored]> (table w)).
  { unfold once. by rewrite (Hstep w Hfirst). }
  intros Hsecond.
  assert (Htwice : table twice = table once).
  { unfold twice. rewrite (Hstep once Hsecond). cbn [snd after table].
    rewrite Honce, lookup_insert_eq.
    change (default [] (Some stored)) with stored.
    unfold stored. rewrite dict_set_pair_idem. fold stored.
    by rewrite insert_insert_eq. }
  split; [by rewrite (Hstep w Hfirst)|]. split; [by rewrite (Hstep once Hsecond)|].
  split; [rewrite Honce; apply lookup_insert_eq|]. split; [exact Htwice|].
  intros w' Hw' Hget Hplain.
  assert (Hlook : table w' !! user_id = Some stored).
  { destruct Hw' as [-> | ->]; rewrite ?Htwice, Honce; apply lookup_insert_eq. }
  exists (with_key user_id stored). unfold lambda_handler.
  rewrite (route_read _ _ ev' p' Hm' Hp' Hpre'),
          (get_user_one ev' w' params' user_id Hpar' Hu' Hkey Hget), Hlook.
  unfold plain in Hplain. rewrite plain_with_key, Hplain.
  cbn [respond fst]. split; [reflexivity|]. split; [reflexivity|].
  rewrite !dict_get_with_key by discriminate. unfold stored. split.
  - rewrite dict_get_set_ne by discriminate. apply dict_get_set_eq.
  - apply dict_get_set_eq.
Qed.

(** C7. What the code does where the claim fails: a POST on the users
    path whose [body] is [null] is not answered 400 [Invalid JSON format];
    [json.loads(None)] raises [TypeError], which the last [except] clause
    turns into 500.  The same holds when the event has no [body] key. *)
Theorem create_user_without_body (ev : event) (w : world) :
  Event.httpMethod ev = Some "POST" -> Event.path ev = Some USERS_PATH ->
  (Event.body ev = Null ->
   handler ev w
   = (error_response 500
        "Internal Server Error: the JSON object must be str, bytes or bytearray, not NoneType",
      w))
  /\ (Event.body ev = Absent ->
      handler ev w = (error_response 500 "Internal Server Error: 'body'", w)).
Proof.
  intros Hm Hp. unfold lambda_handler. rewrite (route_create _ _ ev Hm Hp).
  split; intros Hb.
  - by rewrite (create_user_null_body _ _ ev w Hb).
  - by rewrite (create_user_no_body _ _ ev w Hb).
Qed.

(** C8, amended. A DELETE on the users path with a [user_id] path
    parameter that is not empty and not longer than 2048 bytes, the table
    serving the request, removes the record under that key, whether there
    is one or not, and answers 204 with a confirmation message; done again
    and served again it answers the same and changes nothing more; and a
    GET for that [user_id] after the deletion, served by the table,
    answers 404. *)
Theorem delete_user_unconditional (ev ev' : event) (w : world) (p p' : string)
    (params params' : gmap string string) (user_id : string) :
  Event.httpMethod ev = Some "DELETE" -> Event.path ev = Some p ->
  String.prefix USERS_PATH p = true ->
  Event.pathParameters ev = Present params -> params !! "user_id" = Some user_id ->
  key_ok user_id ->
  Event.httpMethod ev' = Some "GET" -> Event.path ev' = Some p' ->
  String.prefix USERS_PATH p' = true ->
  Event.pathParameters ev' = Present params' -> params' !! "user_id" = Some user_id ->
  let deleted :=
    {| statusCode := 204;
       body := "{" +:+ quoted "message" +:+ ": "
                   +:+ encode_string ("User " +:+ user_id +:+ " deleted successfully") +:+ "}" |} in
  let once := snd (handler ev w) in
  served w (DeleteItem user_id) ->
  handler ev w = (deleted, after w (DeleteItem user_id) (delete user_id (table w)))
  /\ (served once (DeleteItem user_id) ->
      fst (handler ev once) = deleted /\ table (snd (handler ev once)) = table once)
  /\ (served once (GetItem user_id) ->
      fst (handler ev' once)
      = {| statusCode := 404;
           body := "{" +:+ quoted "error" +:+ ": " +:+ quoted "User not found" +:+ "}" |}).
Proof.
  intros Hm Hp Hpre Hpar Hu Hkey Hm' Hp' Hpre' Hpar' Hu' deleted once Hfirst.
  assert (Hstep : forall w0, served w0 (DeleteItem user_id) ->
            handler ev w0
            = (deleted, after w0 (DeleteItem user_id) (delete user_id (table w0)))).
  { intros w0 Hserved. unfold lambda_handler.
    by rewrite (route_delete _ _ ev p Hm Hp Hpre),
               (delete_user_ok ev w0 params user_id Hpar Hu Hkey Hserved). }
  assert (Honce : table once = delete user_id (table w)).
  { unfold once. by rewrite (Hstep w Hfirst). }
  split; [by apply Hstep|]. split.
  - intros Hsecond. rewrite (Hstep once Hsecond). split; [reflexivity|].
    cbn [snd after table]. rewrite Honce. apply delete_id, lookup_delete_eq.
  - intros Hget. unfold lambda_handler.
    rewrite (route_read _ _ ev' p' Hm' Hp' Hpre'),
            (get_user_one ev' once params' user_id Hpar' Hu' Hkey Hget), Honce, lookup_delete_eq.
    reflexivity.
Qed.

(** C9. The handler follows the dispatch table: the first of the five
    rules that the method and path satisfy selects the operation, and an
    event that satisfies none is answered with status 405 and the body
    [{"error": "Method Not Allowed"}], the world (the table and the
    requests sent to it) left as it was. *)
Theorem dispatch_priority (ev : event) (w : world) :
  handler ev w
  = match first_match (method_of ev) (path_of ev) with
    | Some op => respond (run_operation json_loads uuid4 op ev w)
    | None =>
        ({| statusCode := 405;
            body := "{" +:+ quoted "error" +:+ ": " +:+ quoted "Method Not Allowed" +:+ "}" |},
         w)
    end.
Proof.
  unfold lambda_handler. rewrite route_first_match.
  by destruct (first_match (method_of ev) (path_of ev)).
Qed.

(** C10. When create or update answers 400 (no [user_id], no [name] or
    [email], or a body that does not parse), the world is what it was
    before the invocation: no request was sent to the table.  Either
    handler sends the table at most one request, a write, and only after
    its checks. *)
Theorem validation_failure_writes_nothing (ev : event) (w : world) (op : operation) :
  first_match (method_of ev) (path_of ev) = Some op -> op = Create \/ op = Update ->
  (statusCode (fst (handler ev w)) = 400 -> snd (handler ev w) = w)
  /\ at_most_one_write w (snd (handler ev w)).
Proof.
  intros Hop Hcu. unfold lambda_handler. rewrite route_first_match, Hop.
  destruct Hcu as [-> | ->]; cbn [run_operation].
  - apply create_user_400.
  - apply update_user_400.
Qed.

(** ** Further facts about the same handlers *)

(** A body that is a string [json.loads] rejects with [JSONDecodeError] is
    answered 400 [Invalid JSON format], by create and, given a non-empty
    [user_id], by update; the world is left as it was. *)
Lemma unparseable_body_400 (ev : event) (w : world) (s : string) :
  Event.body ev = Present s -> json_loads s = None ->
  (Event.httpMethod ev = Some "POST" /\ Event.path ev = Some USERS_PATH)
  \/ (exists p params user_id,
        Event.httpMethod ev = Some "PUT" /\ Event.path ev = Some p
        /\ String.prefix USERS_PATH p = true
        /\ Event.pathParameters ev = Present params
        /\ params !! "user_id" = Some user_id /\ user_id <> "") ->
  handler ev w = (error_response 400 "Invalid JSON format", w).
Proof.
  intros Hb Hl [[Hm Hp] | (p & params & user_id & Hm & Hp & Hpre & Hpar & Hu & Hne)];
    unfold lambda_handler.
  - by rewrite (route_create _ _ ev Hm Hp), (create_user_bad_json _ _ ev w s Hb Hl).
  - by rewrite (route_update _ _ ev p Hm Hp Hpre),
               (update_user_bad_json _ ev w params user_id s Hpar Hu Hne Hb Hl).
Qed.
End Claims.

(** * The claims at sample events *)

(** The specification's example: [POST /users] with the body
    [{"name":"Ana","email":"ana@x.com"}], then a GET for the new identifier. *)
Lemma create_then_get_roundtrip_witness :
  fst (lambda_handler sample_loads sample_uuid4 post_ana empty_world)
  = {| statusCode := 201;
       body := "{" +:+ quoted "user_id" +:+ ": " +:+ quoted first_id +:+ ", "
                   +:+ quoted "name" +:+ ": " +:+ quoted "Ana" +:+ ", "
                   +:+ quoted "email" +:+ ": " +:+ quoted "ana@x.com" +:+ "}" |}
  /\ exists fetched,
       fst (lambda_handler sample_loads sample_uuid4 get_first_id
              (snd (lambda_handler sample_loads sample_uuid4 post_ana empty_world)))
       = {| statusCode := 200; body := json_dumps (JObj fetched) |}
       /\ Dict.get "user_id" fetched = Some (JStr first_id)
       /\ Dict.get "name" fetched = Some (JStr "Ana")
       /\ Dict.get "email" fetched = Some (JStr "ana@x.com").
Proof.
  apply (create_then_get_roundtrip sample_loads sample_uuid4 post_ana get_first_id empty_world
           ana_text ("/users/" +:+ first_id) ana (JStr "Ana") (JStr "ana@x.com")
           {["user_id" := first_id]}); reflexivity.
Defined.

(** A [name] that is a number is stored, and comes back as a [Decimal]
    that [json.dumps] does not print: the creation answers 201 and the
    fetch of the new identifier 500. *)
Lemma create_then_get_number_counterexample :
  Event.body post_numbered = Present numbered_text
  /\ sample_loads_numbers numbered_text = Some (JObj numbered)
  /\ Dict.get "name" numbered = Some (JInt 5)
  /\ Dict.get "email" numbered = Some (JStr "ana@x.com")
  /\ fst (lambda_handler sample_loads_numbers sample_uuid4 post_numbered empty_world)
     = {| statusCode := 201;
          body := "{" +:+ quoted "user_id" +:+ ": " +:+ quoted first_id +:+ ", "
                      +:+ quoted "name" +:+ ": 5, "
                      +:+ quoted "email" +:+ ": " +:+ quoted "ana@x.com" +:+ "}" |}
  /\ fst (lambda_handler sample_loads_numbers sample_uuid4 get_first_id
            (snd (lambda_handler sample_loads_numbers sample_uuid4 post_numbered empty_world)))
     = {| statusCode := 500;
          body := "{" +:+ quoted "error" +:+ ": "
                      +:+ quoted ("Internal Server Error: "
                                  +:+ "Object of type Decimal is not JSON serializable")
                      +:+ "}" |}.
Proof. repeat split; reflexivity. Qed.

Lemma create_user_created_witness :
  let user_id := str_uuid (sample_uuid4 1) in
  lambda_handler sample_loads sample_uuid4 post_ana one_user
  = ({| statusCode := 201;
        body := "{" +:+ quoted "user_id" +:+ ": " +:+ quoted user_id +:+ ", "
                    +:+ quoted "name" +:+ ": " +:+ quoted "Ana" +:+ ", "
                    +:+ quoted "email" +:+ ": " +:+ quoted "ana@x.com" +:+ "}" |},
     {| table := <[user_id := ana]> (table one_user);
        calls := [PutItem (record user_id (JStr "Ana") (JStr "ana@x.com"))];
        drawn := 2; backend := reliable |})
  /\ user_id <> ""
  /\ (forall n, table (snd (lambda_handler sample_loads sample_uuid4 post_ana one_user))
                  !! str_uuid (sample_uuid4 n)
                = if (sample_uuid4 n mod 2 ^ 128 =? sample_uuid4 1 mod 2 ^ 128)%N
                  then Some ana
                  else table one_user !! str_uuid (sample_uuid4 n)).
Proof.
  apply (create_user_created sample_loads sample_uuid4 post_ana one_user ana_text ana
           (JStr "Ana") (JStr "ana@x.com")); reflexivity.
Defined.

(** Two ways the creation does not answer as claimed.  A [name] that is a
    [float] is refused by boto3 before anything is sent: the answer is 500
    and the table is untouched.  And the identifiers are as distinct as
    the values [uuid4] returns: with a source that repeats itself the
    second creation gets the identifier of the first and overwrites its
    record. *)
Lemma create_user_created_counterexample :
  (Event.body post_float = Present float_text
   /\ sample_loads_numbers float_text
      = Some (JObj [("name", JFloat "1.5"); ("email", JStr "ana@x.com")])
   /\ lambda_handler sample_loads_numbers sample_uuid4 post_float empty_world
      = ({| statusCode := 500;
            body := "{" +:+ quoted "error" +:+ ": "
                        +:+ quoted ("Internal Server Error: "
                                    +:+ "Float types are not supported. Use Decimal types instead.")
                        +:+ "}" |},
         {| table := ∅; calls := []; drawn := 1; backend := reliable |}))
  /\ (let first := lambda_handler sample_loads_people stuck_uuid4 post_ana empty_world in
      let second :=
        lambda_handler sample_loads_people stuck_uuid4
          (request "POST" "/users" Null (Present bob_text)) (snd first) in
      statusCode (fst first) = 201 /\ statusCode (fst second) = 201
      /\ table (snd first) = {[str_uuid 7 := ana]}
      /\ table (snd second) = {[str_uuid 7 := bob]}).
Proof. repeat split; vm_compute; reflexivity. Qed.

Lemma create_user_missing_fields_witness :
  lambda_handler sample_loads sample_uuid4 post_name_only one_user
  = (error_response 400 "Missing required fields: name, email", one_user)
  /\ statusCode (fst (lambda_handler sample_loads sample_uuid4 post_name_only one_user)) = 400
  /\ body (fst (lambda_handler sample_loads sample_uuid4 post_name_only one_user))
     = "{" +:+ quoted "error" +:+ ": " +:+ quoted "Missing required fields: name, email" +:+ "}".
Proof.
  apply (create_user_missing_fields sample_loads sample_uuid4 post_name_only one_user
           name_only_text [("name", JStr "Ana")]); try reflexivity.
  right. reflexivity.
Defined.

(** [GET /users] as the gateway delivers it is answered 500, not the list. *)
Lemma list_users_null_path_parameters_witness :
  lambda_handler sample_loads sample_uuid4 get_collection one_user
  = (error_response 500 "Internal Server Error: 'NoneType' object has no attribute 'get'",
     one_user).
Proof.
  apply (list_users_null_path_parameters sample_loads sample_uuid4 get_collection one_user "/users");
    reflexivity.
Defined.

(** The three cases of a fetch: no record under [u1], a record of strings,
    a record with a number. *)
Lemma get_user_by_id_witness :
  fst (lambda_handler sample_loads sample_uuid4 get_u1 empty_world)
  = {| statusCode := 404;
       body := "{" +:+ quoted "error" +:+ ": " +:+ quoted "User not found" +:+ "}" |}
  /\ (exists user,
        fst (lambda_handler sample_loads sample_uuid4 get_u1 one_user)
        = {| statusCode := 200; body := json_dumps (JObj user) |}
        /\ forall k, Dict.get k user = Dict.get k (with_key "u1" ana))
  /\ statusCode (fst (lambda_handler sample_loads sample_uuid4 get_u1 one_numbered_user)) = 500.
Proof.
  assert (Hkey : key_ok "u1") by (apply key_ok_checked; reflexivity).
  split; [|split].
  - apply (get_user_by_id sample_loads sample_uuid4 get_u1 empty_world "/users/u1" u1_params "u1");
      first [reflexivity | exact Hkey].
  - apply (proj1 (proj2
             (get_user_by_id sample_loads sample_uuid4 get_u1 one_user "/users/u1" u1_params "u1"
                eq_refl eq_refl eq_refl eq_refl eq_refl Hkey eq_refl)) ana); reflexivity.
  - apply (proj2 (proj2
             (get_user_by_id sample_loads sample_uuid4 get_u1 one_numbered_user "/users/u1"
                u1_params "u1" eq_refl eq_refl eq_refl eq_refl eq_refl Hkey eq_refl)) numbered);
      reflexivity.
Defined.

(** Three fetches that answer otherwise than the claim says.  An empty
    [user_id] is taken for none: the answer is the list.  A record that
    is there but holds a number is answered 500, not 200.  And a record
    that is there behind a table that refuses the read is answered 500. *)
Lemma get_user_by_id_counterexample :
  (Event.pathParameters get_empty_id = Present empty_id_params
   /\ empty_id_params !! "user_id" = Some ""
   /\ table empty_world !! "" = None
   /\ fst (lambda_handler sample_loads sample_uuid4 get_empty_id empty_world)
      = {| statusCode := 200; body := "[]" |})
  /\ (table one_numbered_user !! "u1" = Some numbered
      /\ fst (lambda_handler sample_loads sample_uuid4 get_u1 one_numbered_user)
         = {| statusCode := 500;
              body := "{" +:+ quoted "error" +:+ ": "
                          +:+ quoted ("Internal Server Error: "
                                      +:+ "Object of type Decimal is not JSON serializable")
                          +:+ "}" |})
  /\ (table one_user_no_table !! "u1" = Some ana
      /\ fst (lambda_handler sample_loads sample_uuid4 get_u1 one_user_no_table)
         = {| statusCode := 500;
              body := "{" +:+ quoted "error" +:+ ": "
                          +:+ quoted ("DynamoDB error: " +:+ not_found_text (GetItem "u1"))
                          +:+ "}" |}).
Proof. repeat split; vm_compute; reflexivity. Qed.

(** The update of [u1] to Bob's name and address, on a table that holds
    [u1] and on one that does not. *)
Lemma update_user_idempotent_witness :
  let handler := lambda_handler sample_loads_people sample_uuid4 in
  let updated :=
    {| statusCode := 200;
       body := "{" +:+ quoted "message" +:+ ": " +:+ quoted "User updated successfully" +:+ "}" |} in
  let fetched (out : response) :=
    exists user, out = {| statusCode := 200; body := json_dumps (JObj user) |}
                 /\ Dict.get "user_id" user = Some (JStr "u1")
                 /\ Dict.get "name" user = Some (JStr "Bob")
                 /\ Dict.get "email" user = Some (JStr "bob@x.com") in
  (let once := snd (handler put_u1_bob one_user) in
   let twice := snd (handler put_u1_bob once) in
   fst (handler put_u1_bob one_user) = updated
   /\ fst (handler put_u1_bob once) = updated
   /\ table once !! "u1" = Some bob
   /\ table twice = table once
   /\ fetched (fst (handler get_u1 once))
   /\ fetched (fst (handler get_u1 twice)))
  /\ (let once := snd (handler put_u1_bob empty_world) in
      let twice := snd (handler put_u1_bob once) in
      fst (handler put_u1_bob empty_world) = updated
      /\ fst (handler put_u1_bob once) = updated
      /\ table once !! "u1" = Some bob
      /\ table twice = table once
      /\ fetched (fst (handler get_u1 once))
      /\ fetched (fst (handler get_u1 twice))).
Proof.
  assert (Hkey : key_ok "u1") by (apply key_ok_checked; reflexivity).
  pose proof (fun w =>
    update_user_idempotent sample_loads_people sample_uuid4 put_u1_bob get_u1 w
      "/users/u1" "/users/u1" bob_text u1_params u1_params "u1" bob
      (JStr "Bob") (JStr "bob@x.com")
      eq_refl eq_refl eq_refl eq_refl eq_refl Hkey eq_refl eq_refl eq_refl eq_refl eq_refl eq_refl
      eq_refl eq_refl eq_refl eq_refl eq_refl) as Hall.
  split.
  - destruct (Hall one_user eq_refl eq_refl) as (H1 & H2 & H3 & H4 & H5).
    split; [exact H1|]. split; [exact H2|]. split; [exact H3|]. split; [exact H4|]. split.
    + apply (H5 _ (or_introl eq_refl)); reflexivity.
    + apply (H5 _ (or_intror eq_refl)); reflexivity.
  - destruct (Hall empty_world eq_refl eq_refl) as (H1 & H2 & H3 & H4 & H5).
    split; [exact H1|]. split; [exact H2|]. split; [exact H3|]. split; [exact H4|]. split.
    + apply (H5 _ (or_introl eq_refl)); reflexivity.
    + apply (H5 _ (or_intror eq_refl)); reflexivity.
Defined.

(** Four updates that do not go as claimed.  With an empty [user_id] the
    update is refused with 400 and the fetch lists the table.  A [name]
    that is a [float] is refused by boto3: the answer is 500.  A [name]
    that is an integer is stored, but the fetch that follows answers 500.
    And a [user_id] of 2049 bytes is refused by the table: the answer is
    500 and nothing is written. *)
Lemma update_user_idempotent_counterexample :
  (Event.pathParameters put_empty_id = Present empty_id_params
   /\ empty_id_params !! "user_id" = Some ""
   /\ sample_loads ana_text = Some (JObj ana)
   /\ lambda_handler sample_loads sample_uuid4 put_empty_id empty_world
      = ({| statusCode := 400;
            body := "{" +:+ quoted "error" +:+ ": " +:+ quoted "Missing user ID" +:+ "}" |},
         empty_world)
   /\ fst (lambda_handler sample_loads sample_uuid4 get_empty_id empty_world)
      = {| statusCode := 200; body := "[]" |})
  /\ lambda_handler sample_loads_numbers sample_uuid4 put_u1_float one_user
     = ({| statusCode := 500;
           body := "{" +:+ quoted "error" +:+ ": "
                       +:+ quoted ("Internal Server Error: "
                                   +:+ "Float types are not supported. Use Decimal types instead.")
                       +:+ "}" |},
        one_user)
  /\ (statusCode (fst (lambda_handler sample_loads_numbers sample_uuid4 put_u1_numbered one_user))
      = 200
      /\ statusCode
           (fst (lambda_handler sample_loads_numbers sample_uuid4 get_u1
                   (snd (lambda_handler sample_loads_numbers sample_uuid4 put_u1_numbered
                           one_user))))
         = 500)
  /\ (Event.pathParameters put_long_id = Present long_id_params
      /\ long_id_params !! "user_id" = Some long_id
      /\ statusCode (fst (lambda_handler sample_loads sample_uuid4 put_long_id one_user)) = 500
      /\ table (snd (lambda_handler sample_loads sample_uuid4 put_long_id one_user))
         = table one_user).
Proof. repeat split; vm_compute; reflexivity. Qed.

(** [POST /users] without a body, as the gateway delivers it. *)
Lemma create_user_without_body_witness :
  (Event.body post_no_body = Null ->
   lambda_handler sample_loads sample_uuid4 post_no_body one_user
   = (error_response 500
        "Internal Server Error: the JSON object must be str, bytes or bytearray, not NoneType",
      one_user))
  /\ (Event.body post_no_body = Absent ->
      lambda_handler sample_loads sample_uuid4 post_no_body one_user
      = (error_response 500 "Internal Server Error: 'body'", one_user)).
Proof.
  apply (create_user_without_body sample_loads sample_uuid4 post_no_body one_user); reflexivity.
Defined.

(** The deletion of [u1], from a table that holds it and from one that
    does not. *)
Lemma delete_user_unconditional_witness :
  let handler := lambda_handler sample_loads sample_uuid4 in
  let deleted :=
    {| statusCode := 204;
       body := "{" +:+ quoted "message" +:+ ": " +:+ quoted "User u1 deleted successfully" +:+ "}" |} in
  let not_found :=
    {| statusCode := 404;
       body := "{" +:+ quoted "error" +:+ ": " +:+ quoted "User not found" +:+ "}" |} in
  (let once := snd (handler delete_u1 one_user) in
   handler delete_u1 one_user
   = (deleted, {| table := ∅; calls := [DeleteItem "u1"]; drawn := 1; backend := reliable |})
   /\ fst (handler delete_u1 once) = deleted
   /\ table (snd (handler delete_u1 once)) = table once
   /\ fst (handler get_u1 once) = not_found)
  /\ (let once := snd (handler delete_u1 empty_world) in
      handler delete_u1 empty_world
      = (deleted, {| table := ∅; calls := [DeleteItem "u1"]; drawn := 0; backend := reliable |})
      /\ fst (handler delete_u1 once) = deleted
      /\ table (snd (handler delete_u1 once)) = table once
      /\ fst (handler get_u1 once) = not_found).
Proof.
  assert (Hkey : key_ok "u1") by (apply key_ok_checked; reflexivity).
  pose proof (fun w =>
    delete_user_unconditional sample_loads sample_uuid4 delete_u1 get_u1 w
      "/users/u1" "/users/u1" u1_params u1_params "u1"
      eq_refl eq_refl eq_refl eq_refl eq_refl Hkey eq_refl eq_refl eq_refl eq_refl eq_refl)
    as Hall.
  split.
  - destruct (Hall one_user eq_refl) as (H1 & H2 & H3).
    destruct (H2 eq_refl) as [H2a H2b].
    split; [exact H1|]. split; [exact H2a|]. split; [exact H2b|]. exact (H3 eq_refl).
  - destruct (Hall empty_world eq_refl) as (H1 & H2 & H3).
    destruct (H2 eq_refl) as [H2a H2b].
    split; [exact H1|]. split; [exact H2a|]. split; [exact H2b|]. exact (H3 eq_refl).
Defined.

(** Two deletions that do not answer 204.  With an empty [user_id] the
    deletion is refused with 400; and when the table refuses the request
    the answer is 500 and the record stays. *)
Lemma delete_user_unconditional_counterexample :
  (Event.pathParameters delete_empty_id = Present empty_id_params
   /\ empty_id_params !! "user_id" = Some ""
   /\ lambda_handler sample_loads sample_uuid4 delete_empty_id one_user
      = ({| statusCode := 400;
            body := "{" +:+ quoted "error" +:+ ": " +:+ quoted "Missing user ID" +:+ "}" |},
         one_user))
  /\ (fst (lambda_handler sample_loads sample_uuid4 delete_u1 one_user_no_table)
      = {| statusCode := 500;
           body := "{" +:+ quoted "error" +:+ ": "
                       +:+ quoted ("DynamoDB error: " +:+ not_found_text (DeleteItem "u1"))
                       +:+ "}" |}
      /\ table (snd (lambda_handler sample_loads sample_uuid4 delete_u1 one_user_no_table))
         !! "u1" = Some ana).
Proof. repeat split; vm_compute; reflexivity. Qed.

Lemma validation_failure_writes_nothing_witness :
  (statusCode (fst (lambda_handler sample_loads sample_uuid4 post_name_only one_user)) = 400 ->
   snd (lambda_handler sample_loads sample_uuid4 post_name_only one_user) = one_user)
  /\ at_most_one_write one_user
       (snd (lambda_handler sample_loads sample_uuid4 post_name_only one_user)).
Proof.
  apply (validation_failure_writes_nothing sample_loads sample_uuid4 post_name_only one_user
           Create); [reflexivity | left; reflexivity].
Defined.

(** ** More of the handler at sample events *)

Example health_check :
  lambda_handler sample_loads sample_uuid4 (request "GET" "/health" Null Null) empty_world
  = ({| statusCode := 200;
        body := "{" +:+ quoted "message" +:+ ": " +:+ quoted "API is up and running" +:+ "}" |},
     empty_world).
Proof. reflexivity. Qed.

Example unknown_method :
  lambda_handler sample_loads sample_uuid4 patch_u1 one_user
  = ({| statusCode := 405;
        body := "{" +:+ quoted "error" +:+ ": " +:+ quoted "Method Not Allowed" +:+ "}" |},
     one_user).
Proof. reflexivity. Qed.

Example garbled_body :
  lambda_handler sample_loads sample_uuid4 post_garbled one_user
  = ({| statusCode := 400;
        body := "{" +:+ quoted "error" +:+ ": " +:+ quoted "Invalid JSON format" +:+ "}" |},
     one_user).
Proof. reflexivity. Qed.

Example created_body_text :
  body (fst (lambda_handler sample_loads sample_uuid4 post_ana empty_world))
  = "{" +:+ quoted "user_id" +:+ ": " +:+ quoted first_id +:+ ", "
        +:+ quoted "name" +:+ ": " +:+ quoted "Ana" +:+ ", "
        +:+ quoted "email" +:+ ": " +:+ quoted "ana@x.com" +:+ "}".
Proof. reflexivity. Qed.
(** * Further properties of the handler *)

Lemma prefix_app (s t : string) : String.prefix s (s +:+ t) = true.
Proof.
  induction s as [|c s IH]; [by destruct t|].
  rewrite app_cons. cbn [String.prefix].
  by destruct (ascii_dec c c).
Qed.


Section Routing.
Variable json_loads : string -> option json.
Variable uuid4 : nat -> N.

Local Abbreviation handler := (lambda_handler json_loads uuid4).




(** X4. GET, PUT and DELETE are matched on a prefix: every path that
    begins with the users path, whatever follows, reaches the read, update
    and delete operations. *)
Theorem users_prefix_any_suffix (ev : event) (w : world) (t : string) :
  Event.path ev = Some (USERS_PATH +:+ t) ->
  (Event.httpMethod ev = Some "GET" -> handler ev w = respond (get_user ev w))
  /\ (Event.httpMethod ev = Some "PUT" -> handler ev w = respond (update_user json_loads ev w))
  /\ (Event.httpMethod ev = Some "DELETE" -> handler ev w = respond (delete_user ev w)).
Proof.
  intros Hp. unfold lambda_handler.
  pose proof (prefix_app USERS_PATH t) as Hpre.
  repeat split; intros Hm.
  - by rewrite (route_read _ _ ev _ Hm Hp Hpre).
  - by rewrite (route_update _ _ ev _ Hm Hp Hpre).
  - by rewrite (route_delete _ _ ev _ Hm Hp Hpre).
Qed.




End Routing.

(** ** Bodies that are not objects *)

Lemma existsb_str (key : string) (l : list json) :
  existsb (fun x => match x with JStr s => String.eqb s key | _ => false end) l = true
  <-> In (JStr key) l.
Proof.
  rewrite existsb_exists. split.
  - intros (x & Hin & Hx). destruct x; try discriminate Hx.
    apply String.eqb_eq in Hx as ->. exact Hin.
  - intros Hin. exists (JStr key). split; [exact Hin | apply String.eqb_refl].
Qed.

Section Bodies.
Variable json_loads : string -> option json.
Variable uuid4 : nat -> N.

Local Abbreviation handler := (lambda_handler json_loads uuid4).

(** X9. A body that decodes to [null], a boolean or a number makes create
    and update answer 500: the test ['name' not in body] raises on it.
    Nothing is read, written or generated. *)
Theorem scalar_body_500 (ev : event) (w : world) (s : string) (v : json) :
  reads_body ev -> Event.body ev = Present s -> json_loads s = Some v ->
  scalar v = true ->
  statusCode (fst (handler ev w)) = 500 /\ snd (handler ev w) = w.
Proof.
  intros [[Hm Hp] | (p & params & user_id & Hm & Hp & Hpre & Hpar & Hu & Hne)] Hb Hl Hs;
    unfold lambda_handler.
  - rewrite (route_create _ _ ev Hm Hp).
    unfold create_user, except_backend, bind, event_body, loads.
    rewrite Hb. cbn. rewrite Hl.
    destruct v; try discriminate Hs; cbn; done.
  - rewrite (route_update _ _ ev p Hm Hp Hpre),
            (update_user_body _ ev w params user_id s v Hpar Hu Hne Hb Hl).
    destruct v; try discriminate Hs; cbn; done.
Qed.

(** X10. A body that decodes to an array is not refused as such.  When
    the array holds both strings [name] and [email] the presence test
    passes, [body['name']] then raises, and create answers 500 having
    generated an identifier but sent nothing to the table; otherwise
    create answers 400 [Missing required fields] and touches nothing. *)
Theorem create_array_body (ev : event) (w : world) (s : string) (l : list json) :
  Event.httpMethod ev = Some "POST" -> Event.path ev = Some USERS_PATH ->
  Event.body ev = Present s -> json_loads s = Some (JArr l) ->
  (In (JStr "name") l /\ In (JStr "email") l ->
   statusCode (fst (handler ev w)) = 500
   /\ snd (handler ev w)
      = {| table := table w; calls := calls w; drawn := S (drawn w);
           backend := backend w |})
  /\ (~ In (JStr "name") l \/ ~ In (JStr "email") l ->
      handler ev w = (error_response 400 "Missing required fields: name, email", w)).
Proof.
  intros Hm Hp Hb Hl. unfold lambda_handler. rewrite (route_create _ _ ev Hm Hp).
  unfold create_user, except_backend, bind, event_body, loads, missing_fields, bind, contains.
  rewrite Hb. cbn. rewrite Hl. cbn.
  pose proof (existsb_str "name" l) as Hn. pose proof (existsb_str "email" l) as He.
  destruct (existsb _ l); cbn.
  - destruct (existsb _ l); cbn.
    + split; [done|]. intros [Hno | Hno]; destruct Hno; [apply Hn | apply He]; reflexivity.
    + split; [|done]. intros [_ Hin]. apply He in Hin. discriminate Hin.
  - split; [|done]. intros [Hin _]. apply Hn in Hin. discriminate Hin.
Qed.

(** X11. The same with a body that decodes to a string: the presence
    test is then a substring test.  A string in which both [name] and
    [email] occur makes create answer 500 with an identifier generated and
    nothing sent to the table; any other string is answered 400. *)
Theorem create_string_body (ev : event) (w : world) (s t : string) :
  Event.httpMethod ev = Some "POST" -> Event.path ev = Some USERS_PATH ->
  Event.body ev = Present s -> json_loads s = Some (JStr t) ->
  (String.index 0 "name" t <> None /\ String.index 0 "email" t <> None ->
   statusCode (fst (handler ev w)) = 500
   /\ snd (handler ev w)
      = {| table := table w; calls := calls w; drawn := S (drawn w);
           backend := backend w |})
  /\ (String.index 0 "name" t = None \/ String.index 0 "email" t = None ->
      handler ev w = (error_response 400 "Missing required fields: name, email", w)).
Proof.
  intros Hm Hp Hb Hl. unfold lambda_handler. rewrite (route_create _ _ ev Hm Hp).
  unfold create_user, except_backend, bind, event_body, loads, missing_fields, bind, contains.
  rewrite Hb. cbn. rewrite Hl. cbn.
  destruct (String.index 0 "name" t) eqn:En; cbn.
  - destruct (String.index 0 "email" t) eqn:Ee; cbn.
    + split; [done|]. intros [Hno | Hno]; discriminate Hno.
    + split; [|done]. intros [_ Hin]. done.
  - split; [|done]. intros [Hin _]. done.
Qed.

(** X12. Update with a body that decodes to an array or a string holding
    both [name] and [email]: the presence test passes, [body['name']]
    raises and the answer is 500; the table is neither read nor written. *)
Theorem update_array_or_string_body (ev : event) (w : world) (p s : string)
    (params : gmap string string) (user_id : string) (v : json) :
  Event.httpMethod ev = Some "PUT" -> Event.path ev = Some p ->
  String.prefix USERS_PATH p = true ->
  Event.pathParameters ev = Present params -> params !! "user_id" = Some user_id ->
  user_id <> "" ->
  Event.body ev = Present s -> json_loads s = Some v ->
  (exists l, v = JArr l /\ In (JStr "name") l /\ In (JStr "email") l)
  \/ (exists t, v = JStr t /\ String.index 0 "name" t <> None
                /\ String.index 0 "email" t <> None) ->
  statusCode (fst (handler ev w)) = 500 /\ snd (handler ev w) = w.
Proof.
  intros Hm Hp Hpre Hpar Hu Hne Hb Hl Hv. unfold lambda_handler.
  rewrite (route_update _ _ ev p Hm Hp Hpre),
          (update_user_body _ ev w params user_id s v Hpar Hu Hne Hb Hl).
  unfold except_backend, missing_fields, bind, contains.
  destruct Hv as [(l & -> & Hn & He) | (t & -> & Hn & He)]; cbn.
  - apply existsb_str in Hn, He. rewrite Hn, He. cbn. done.
  - destruct (String.index 0 "name" t); [|done].
    destruct (String.index 0 "email" t); [|done]. cbn. done.
Qed.
End Bodies.

(** ** What every invocation keeps *)

Ltac leaf :=
  unfold well_behaved, at_most_one_call, status_codes; cbn;
  split; [repeat (first [left; reflexivity | right])
         | split; [first [by left | right; eexists; reflexivity]
                  | first [done | intros; lia]]].

Section Invariants.
Variable json_loads : string -> option json.
Variable uuid4 : nat -> N.

Local Abbreviation handler := (lambda_handler json_loads uuid4).

Lemma create_user_well_behaved (ev : event) (w : world) :
  well_behaved w (respond (create_user json_loads uuid4 ev w)).
Proof.
  unfold create_user, except_backend, bind, event_body, loads.
  destruct (Event.body ev) as [| |s]; cbn; try leaf.
  destruct (json_loads s) as [v|]; cbn; [|leaf].
  pose proof (missing_fields_pure v w) as Hpure.
  destruct (missing_fields v w) as [[e|[|]] w1]; cbn in Hpure; subst w1.
  - destruct e; leaf.
  - leaf.
  - unfold new_uuid, getitem, ret, raise. cbn.
    destruct v; cbn; try leaf.
    destruct (Dict.get "name" d) as [name|]; cbn; [|leaf].
    destruct (Dict.get "email" d) as [email|]; cbn; [|leaf].
    match goal with |- context [Table.put_item ?it ?w'] =>
      destruct (put_item_cases it _ w' eq_refl)
        as [(e & Hr & ->) | [(msg & ->) | (_ & _ & _ & ->)]] end.
    + destruct (refused_kind _ _ Hr) as [[m ->] | [m ->]]; leaf.
    + leaf.
    + leaf.
Qed.

Lemma update_user_well_behaved (ev : event) (w : world) :
  well_behaved w (respond (update_user json_loads ev w)).
Proof.
  unfold update_user, except_backend, bind, params_user_id, event_body, loads.
  destruct (event_path_params ev) as [params|]; cbn; [|leaf].
  destruct (params !! "user_id") as [[|c u]|]; cbn; try leaf.
  destruct (Event.body ev) as [| |s]; cbn; try leaf.
  destruct (json_loads s) as [v|]; cbn; [|leaf].
  pose proof (missing_fields_pure v w) as Hpure.
  destruct (missing_fields v w) as [[e|[|]] w1]; cbn in Hpure; subst w1.
  - destruct e; leaf.
  - leaf.
  - unfold getitem, ret, raise. cbn.
    destruct v; cbn; try leaf.
    destruct (Dict.get "name" d) as [name|]; cbn; [|leaf].
    destruct (Dict.get "email" d) as [email|]; cbn; [|leaf].
    match goal with |- context [Table.update_item ?k ?n ?e ?w'] =>
      destruct (update_item_cases k n e w')
        as [(e' & Hkind & ->) | [(msg & ->) | (_ & _ & _ & _ & ->)]] end.
    + destruct Hkind as [[m ->] | [m ->]]; leaf.
    + leaf.
    + leaf.
Qed.

Lemma delete_user_well_behaved (ev : event) (w : world) :
  well_behaved w (respond (delete_user ev w)).
Proof.
  unfold delete_user, except_backend, bind, params_user_id.
  destruct (event_path_params ev) as [params|]; cbn; [|leaf].
  destruct (params !! "user_id") as [[|c u]|]; cbn; try leaf.
  match goal with |- context [Table.delete_item ?k ?w'] =>
    destruct (delete_item_cases k w') as [(msg & ->) | (_ & _ & ->)] end; leaf.
Qed.

Lemma list_all_users_well_behaved (w : world) :
  well_behaved w (respond (except_backend list_all_users w)).
Proof.
  unfold list_all_users, except_backend, bind, success_response_read.
  destruct (scan_cases w) as [(msg & ->) | (_ & ->)]; [leaf|].
  destruct (has_number _); leaf.
Qed.

Lemma get_user_well_behaved (ev : event) (w : world) :
  well_behaved w (respond (get_user ev w)).
Proof.
  unfold get_user, bind, params_user_id.
  destruct (event_path_params ev) as [params|]; cbn; [|leaf].
  destruct (params !! "user_id") as [[|c u]|]; cbn;
    try apply list_all_users_well_behaved.
  unfold except_backend, success_response_read.
  match goal with |- context [Table.get_item ?k ?w'] =>
    destruct (get_item_cases k w') as [(msg & ->) | (_ & _ & ->)] end; [leaf|].
  destruct (table w !! String c u) as [attrs|]; cbn [fmap option_fmap option_map]; [|leaf].
  unfold with_key. destruct (has_number _); leaf.
Qed.

Lemma handler_well_behaved (ev : event) (w : world) : well_behaved w (handler ev w).
Proof.
  unfold lambda_handler. rewrite route_first_match.
  destruct (first_match (method_of ev) (path_of ev)) as [[| | | |]|]; cbn [run_operation].
  - leaf.
  - apply create_user_well_behaved.
  - apply get_user_well_behaved.
  - apply update_user_well_behaved.
  - apply delete_user_well_behaved.
  - leaf.
Qed.

(** X13. Every response carries one of the seven status codes 200, 201,
    204, 400, 404, 405 and 500, whatever the event, the table and the
    decoder are. *)
Theorem status_code_known (ev : event) (w : world) :
  In (statusCode (fst (handler ev w))) status_codes.
Proof. destruct (handler_well_behaved ev w) as (Hstatus & _ & _). exact Hstatus. Qed.

(** X14. An invocation sends the table at most one request. *)
Theorem one_table_request (ev : event) (w : world) :
  at_most_one_call w (snd (handler ev w)).
Proof. destruct (handler_well_behaved ev w) as (_ & Hcalls & _). exact Hcalls. Qed.

(** X15. An invocation answered with an error status (400 and above)
    leaves the table exactly as it found it. *)
Theorem error_keeps_table (ev : event) (w : world) :
  400 <= statusCode (fst (handler ev w)) -> table (snd (handler ev w)) = table w.
Proof. destruct (handler_well_behaved ev w) as (_ & _ & Herr). exact Herr. Qed.
End Invariants.

(** ** Reads, and what a write leaves alone *)

Section Frames.
Variable json_loads : string -> option json.
Variable uuid4 : nat -> N.

Local Abbreviation handler := (lambda_handler json_loads uuid4).

Lemma read_sent (w : world) (c : call) :
  is_write c = false ->
  table w = table w /\ drawn w = drawn w
  /\ (calls w ++ [c] = calls w
      \/ exists c', is_write c' = false /\ calls w ++ [c] = calls w ++ [c']).
Proof. intros Hc. split; [done|]. split; [done|]. right. by exists c. Qed.

Lemma list_all_users_reads (w : world) :
  let out := respond (except_backend list_all_users w) in
  table (snd out) = table w /\ drawn (snd out) = drawn w
  /\ (calls (snd out) = calls w
      \/ exists c, is_write c = false /\ calls (snd out) = calls w ++ [c]).
Proof.
  unfold list_all_users, except_backend, bind, success_response_read.
  destruct (scan_cases w) as [(msg & ->) | (_ & ->)]; cbn; [by apply read_sent|].
  destruct (existsb _ _); cbn; by apply read_sent.
Qed.

Lemma get_user_reads (ev : event) (w : world) :
  let out := respond (get_user ev w) in
  table (snd out) = table w /\ drawn (snd out) = drawn w
  /\ (calls (snd out) = calls w
      \/ exists c, is_write c = false /\ calls (snd out) = calls w ++ [c]).
Proof.
  unfold get_user, bind, params_user_id.
  destruct (event_path_params ev) as [params|]; cbn; [|by auto].
  destruct (params !! "user_id") as [[|c u]|]; cbn;
    try apply list_all_users_reads.
  unfold except_backend, success_response_read.
  match goal with |- context [Table.get_item ?k ?w'] =>
    destruct (get_item_cases k w') as [(msg & ->) | (_ & _ & ->)] end;
    cbn; [by apply read_sent|].
  destruct (table w !! String c u) as [attrs|]; cbn; [|by apply read_sent].
  destruct (existsb _ attrs); cbn; by apply read_sent.
Qed.

(** X16. A GET never changes the table and never generates an
    identifier, on any path and with any parameters; what it sends the
    table, if anything, is one read. *)
Theorem get_is_read_only (ev : event) (w : world) :
  Event.httpMethod ev = Some "GET" ->
  table (snd (handler ev w)) = table w /\ drawn (snd (handler ev w)) = drawn w
  /\ (calls (snd (handler ev w)) = calls w
      \/ exists c, is_write c = false /\ calls (snd (handler ev w)) = calls w ++ [c]).
Proof.
  intros Hm. unfold lambda_handler, route. rewrite Hm. cbn.
  destruct (String.eqb _ HEALTH_PATH); cbn; [by auto|].
  destruct (String.prefix USERS_PATH _); cbn; [|by auto].
  apply get_user_reads.
Qed.

Lemma update_user_frame (ev : event) (w : world) (params : gmap string string)
    (user_id k : string) :
  Event.pathParameters ev = Present params -> params !! "user_id" = Some user_id ->
  k <> user_id ->
  table (snd (respond (update_user json_loads ev w))) !! k = table w !! k.
Proof.
  intros Hp Hu Hk.
  unfold update_user, except_backend, bind, params_user_id, event_path_params, event_body, loads.
  rewrite Hp. cbn. rewrite Hu.
  destruct user_id as [|c u]; cbn; [done|].
  destruct (Event.body ev) as [| |s]; cbn; try done.
  destruct (json_loads s) as [v|]; cbn; [|done].
  pose proof (missing_fields_pure v w) as Hpure.
  destruct (missing_fields v w) as [[e|[|]] w1]; cbn in Hpure; subst w1.
  - by destruct e.
  - done.
  - unfold getitem, ret, raise. cbn.
    destruct v; cbn; try done.
    destruct (Dict.get "name" d) as [name|]; cbn; [|done].
    destruct (Dict.get "email" d) as [email|]; cbn; [|done].
    match goal with |- context [Table.update_item ?k ?n ?e ?w'] =>
      destruct (update_item_cases k n e w')
        as [(e' & Hkind & ->) | [(msg & ->) | (_ & _ & _ & _ & ->)]] end; cbn.
    + by destruct Hkind as [[m ->] | [m ->]].
    + done.
    + by rewrite lookup_insert_ne.
Qed.

Lemma delete_user_frame (ev : event) (w : world) (params : gmap string string)
    (user_id k : string) :
  Event.pathParameters ev = Present params -> params !! "user_id" = Some user_id ->
  k <> user_id ->
  table (snd (respond (delete_user ev w))) !! k = table w !! k.
Proof.
  intros Hp Hu Hk.
  unfold delete_user, except_backend, bind, params_user_id, event_path_params.
  rewrite Hp. cbn. rewrite Hu.
  destruct user_id as [|c u]; cbn; [done|].
  match goal with |- context [Table.delete_item ?k ?w'] =>
    destruct (delete_item_cases k w') as [(msg & ->) | (_ & _ & ->)] end; cbn; [done|].
  by rewrite lookup_delete_ne.
Qed.

(** X17. A PUT or DELETE for one [user_id] leaves the record of every
    other user as it was, whatever the path and the body are and whether
    the request succeeds or not. *)
Theorem other_users_untouched (ev : event) (w : world) (params : gmap string string)
    (user_id k : string) :
  Event.httpMethod ev = Some "PUT" \/ Event.httpMethod ev = Some "DELETE" ->
  Event.pathParameters ev = Present params -> params !! "user_id" = Some user_id ->
  k <> user_id ->
  table (snd (handler ev w)) !! k = table w !! k.
Proof.
  intros [Hm | Hm] Hp Hu Hk; unfold lambda_handler, route; rewrite Hm; cbn;
    (destruct (String.prefix USERS_PATH _); cbn; [|done]).
  - by apply (update_user_frame ev w params user_id).
  - by apply (delete_user_frame ev w params user_id).
Qed.

(** X18. A POST writes under the identifier it generates and nowhere
    else: the record under every other key is as it was, whatever the
    body is. *)
Theorem create_touches_new_id_only (ev : event) (w : world) (k : string) :
  Event.httpMethod ev = Some "POST" ->
  k <> str_uuid (uuid4 (drawn w)) ->
  table (snd (handler ev w)) !! k = table w !! k.
Proof.
  intros Hm Hk. unfold lambda_handler, route. rewrite Hm. cbn.
  destruct (String.eqb _ USERS_PATH); cbn; [|done].
  unfold create_user, except_backend, bind, event_body, loads.
  destruct (Event.body ev) as [| |s]; cbn; try done.
  destruct (json_loads s) as [v|]; cbn; [|done].
  pose proof (missing_fields_pure v w) as Hpure.
  destruct (missing_fields v w) as [[e|[|]] w1]; cbn in Hpure; subst w1.
  - by destruct e.
  - done.
  - unfold new_uuid, getitem, ret, raise. cbn.
    destruct v; cbn; try done.
    destruct (Dict.get "name" d) as [name|]; cbn; [|done].
    destruct (Dict.get "email" d) as [email|]; cbn; [|done].
    match goal with |- context [Table.put_item ?it ?w'] =>
      destruct (put_item_cases it _ w' eq_refl)
        as [(e & Hr & ->) | [(msg & ->) | (_ & _ & _ & ->)]] end; cbn.
    + by destruct (refused_kind _ _ Hr) as [[m ->] | [m ->]].
    + done.
    + by rewrite lookup_insert_ne.
Qed.
End Frames.

(** ** The list, operations in sequence, and requests that fail *)




Lemma check_key_long {A} (operation key : string) (k : M A) (w : world) :
  (2048 < utf8_length key)%nat ->
  check_key operation key k w
  = (inl (validation_error operation
            ("One or more parameter values were invalid: Size of hashkey has exceeded "
             +:+ "the maximum size limit of2048 bytes")), w).
Proof.
  intros Hlen. unfold check_key.
  destruct (String.eqb_spec key "") as [-> | _]; [cbn in Hlen; lia|].
  by destruct (Nat.ltb_spec 2048 (utf8_length key)); [|lia].
Qed.

Lemma storable_record (user_id : string) (name email : json) :
  storable name -> storable email -> storable (JObj (record user_id name email)).
Proof.
  unfold storable. intros Hn He. cbn [refused map snd first_error fold_right record].
  by rewrite Hn, He.
Qed.

Lemma put_item_failed (it : item) (w : world) (msg : string) :
  storable (JObj it) -> fails (backend w) (length (calls w)) (PutItem it) = Some msg ->
  Table.put_item it w = (inl (ClientError msg), after w (PutItem it) (table w)).
Proof.
  intros Hs Hfail. unfold Table.put_item, bind, serialize. rewrite Hs. cbn [ret].
  by rewrite (send_failed _ _ w msg Hfail).
Qed.

Lemma update_item_failed (key : string) (name email : json) (w : world) (msg : string) :
  storable name -> storable email ->
  fails (backend w) (length (calls w)) (UpdateItem key name email) = Some msg ->
  Table.update_item key name email w
  = (inl (ClientError msg), after w (UpdateItem key name email) (table w)).
Proof.
  intros Hn He Hfail. unfold Table.update_item, bind, serialize.
  cbn [refused map snd first_error fold_right]. rewrite Hn, He. cbn [ret].
  by rewrite (send_failed _ _ w msg Hfail).
Qed.

Lemma update_item_long (key : string) (name email : json) (w : world) :
  storable name -> storable email -> served w (UpdateItem key name email) ->
  (2048 < utf8_length key)%nat ->
  Table.update_item key name email w
  = (inl (validation_error "UpdateItem"
            ("One or more parameter values were invalid: Size of hashkey has exceeded "
             +:+ "the maximum size limit of2048 bytes")),
     after w (UpdateItem key name email) (table w)).
Proof.
  intros Hn He Hserved Hlen. unfold Table.update_item, bind, serialize, send.
  cbn [refused map snd first_error fold_right]. rewrite Hn, He. cbn.
  unfold served in Hserved. by rewrite Hserved, (check_key_long _ _ _ _ Hlen).
Qed.

Section Sequences.
Variable json_loads : string -> option json.
Variable uuid4 : nat -> N.

Local Abbreviation handler := (lambda_handler json_loads uuid4).

(** X19. A GET on the users path without a [user_id] scans the table
    once and changes nothing.  When the scan is served, the answer is 200
    with the JSON array of the items of the page the scan returned,
    provided no item holds a number; when one does the answer is 500. *)
Theorem list_users_page (ev : event) (w : world) (p : string) :
  Event.httpMethod ev = Some "GET" -> Event.path ev = Some p ->
  String.prefix USERS_PATH p = true -> no_user_id ev -> served w Scan ->
  let page := JArr (map JObj (scan_page (backend w) (table w))) in
  snd (handler ev w) = after w Scan (table w)
  /\ (plain page -> fst (handler ev w) = {| statusCode := 200; body := json_dumps page |})
  /\ (has_number page = true ->
      fst (handler ev w)
      = {| statusCode := 500;
           body := "{" +:+ quoted "error" +:+ ": "
                       +:+ quoted ("Internal Server Error: "
                                   +:+ "Object of type Decimal is not JSON serializable")
                       +:+ "}" |}).
Proof.
  intros Hm Hp Hpre Hno Hserved page. unfold lambda_handler.
  rewrite (route_read _ _ ev p Hm Hp Hpre), (get_user_list ev w Hno Hserved).
  cbv zeta. fold page. unfold plain.
  destruct (has_number page); (split; [reflexivity|]); split; first [done | reflexivity].
Qed.

(** X22. Update does not check that the user exists: a PUT for a
    [user_id] the table does not hold answers 200 and creates the record,
    so that a GET for it, 404 before, then answers 200 with the three
    fields.  The [user_id] is one the table takes, [name] and [email] hold
    no number, and the table serves the three requests. *)
Theorem update_creates_missing_user (ev ev' : event) (w : world) (p p' s : string)
    (params params' : gmap string string) (user_id : string)
    (d : list (string * json)) (name email : json) :
  Event.httpMethod ev = Some "PUT" -> Event.path ev = Some p ->
  String.prefix USERS_PATH p = true ->
  Event.pathParameters ev = Present params -> params !! "user_id" = Some user_id ->
  key_ok user_id ->
  Event.body ev = Present s -> json_loads s = Some (JObj d) ->
  Dict.get "name" d = Some name -> Dict.get "email" d = Some email ->
  plain name -> plain email ->
  Event.httpMethod ev' = Some "GET" -> Event.path ev' = Some p' ->
  String.prefix USERS_PATH p' = true ->
  Event.pathParameters ev' = Present params' -> params' !! "user_id" = Some user_id ->
  table w !! user_id = None ->
  served w (GetItem user_id) -> served w (UpdateItem user_id name email) ->
  served (snd (handler ev w)) (GetItem user_id) ->
  fst (handler ev' w)
  = {| statusCode := 404;
       body := "{" +:+ quoted "error" +:+ ": " +:+ quoted "User not found" +:+ "}" |}
  /\ fst (handler ev w)
     = {| statusCode := 200;
          body := "{" +:+ quoted "message" +:+ ": " +:+ quoted "User updated successfully"
                      +:+ "}" |}
  /\ exists fetched,
       fst (handler ev' (snd (handler ev w)))
       = {| statusCode := 200; body := json_dumps (JObj fetched) |}
       /\ forall k, Dict.get k fetched = Dict.get k (record user_id name email).
Proof.
  intros Hm Hp Hpre Hpar Hu Hkey Hb Hl Hn He Hpn Hpe Hm' Hp' Hpre' Hpar' Hu' Hnone Hget Hupd.
  unfold lambda_handler.
  rewrite (route_update _ _ ev p Hm Hp Hpre),
          (update_user_ok _ ev w params user_id s d name email Hpar Hu Hkey Hb Hl Hn He
             (plain_storable _ Hpn) (plain_storable _ Hpe) Hupd).
  cbn [respond fst snd]. intros Hget'.
  rewrite !(route_read _ _ ev' p' Hm' Hp' Hpre'),
          (get_user_one ev' w params' user_id Hpar' Hu' Hkey Hget),
          (get_user_one ev' _ params' user_id Hpar' Hu' Hkey Hget').
  cbn [after table]. rewrite Hnone, lookup_insert_eq.
  split; [reflexivity|]. split; [reflexivity|].
  exists (record user_id name email).
  unfold plain in Hpn, Hpe. cbn. rewrite Hpn, Hpe. split; reflexivity.
Qed.

(** X23. Create, update, fetch: a user created by a POST and then updated
    by a PUT for the identifier the POST returned is fetched with that
    identifier and the [name] and [email] of the PUT; nothing of the
    first [name] and [email] is left.  The values of the POST are ones
    boto3 serializes, those of the PUT hold no number, and the table
    serves the three requests. *)
Theorem create_update_get (ev0 ev1 ev2 : event) (w : world) (s0 s1 p1 p2 : string)
    (d0 d1 : list (string * json)) (name0 email0 name email : json)
    (params1 params2 : gmap string string) :
  Event.httpMethod ev0 = Some "POST" -> Event.path ev0 = Some USERS_PATH ->
  Event.body ev0 = Present s0 -> json_loads s0 = Some (JObj d0) ->
  Dict.get "name" d0 = Some name0 -> Dict.get "email" d0 = Some email0 ->
  storable name0 -> storable email0 ->
  let user_id := str_uuid (uuid4 (drawn w)) in
  Event.httpMethod ev1 = Some "PUT" -> Event.path ev1 = Some p1 ->
  String.prefix USERS_PATH p1 = true ->
  Event.pathParameters ev1 = Present params1 -> params1 !! "user_id" = Some user_id ->
  Event.body ev1 = Present s1 -> json_loads s1 = Some (JObj d1) ->
  Dict.get "name" d1 = Some name -> Dict.get "email" d1 = Some email ->
  plain name -> plain email ->
  Event.httpMethod ev2 = Some "GET" -> Event.path ev2 = Some p2 ->
  String.prefix USERS_PATH p2 = true ->
  Event.pathParameters ev2 = Present params2 -> params2 !! "user_id" = Some user_id ->
  let created := snd (handler ev0 w) in
  let updated := snd (handler ev1 created) in
  served w (PutItem (record user_id name0 email0)) ->
  served created (UpdateItem user_id name email) ->
  served updated (GetItem user_id) ->
  exists fetched,
    fst (handler ev2 updated) = {| statusCode := 200; body := json_dumps (JObj fetched) |}
    /\ forall k, Dict.get k fetched = Dict.get k (record user_id name email).
Proof.
  intros Hm0 Hp0 Hb0 Hl0 Hn0 He0 Hsn0 Hse0 user_id Hm1 Hp1 Hpre1 Hpar1 Hu1 Hb1 Hl1 Hn1 He1
    Hpn Hpe Hm2 Hp2 Hpre2 Hpar2 Hu2 created updated Hput.
  pose proof (str_uuid_key_ok (uuid4 (drawn w))) as Hkey. fold user_id in Hkey.
  unfold updated, created, lambda_handler.
  rewrite (route_create _ _ ev0 Hm0 Hp0),
          (create_user_ok _ _ ev0 w s0 d0 name0 email0 Hb0 Hl0 Hn0 He0 Hsn0 Hse0 Hput).
  cbn [respond snd]. fold user_id. intros Hupd.
  rewrite (route_update _ _ ev1 p1 Hm1 Hp1 Hpre1),
          (update_user_ok _ ev1 _ params1 user_id s1 d1 name email Hpar1 Hu1 Hkey Hb1 Hl1 Hn1 He1
             (plain_storable _ Hpn) (plain_storable _ Hpe) Hupd).
  cbn [respond snd]. intros Hget.
  rewrite (route_read _ _ ev2 p2 Hm2 Hp2 Hpre2),
          (get_user_one ev2 _ params2 user_id Hpar2 Hu2 Hkey Hget).
  cbn [after table]. rewrite !lookup_insert_eq.
  exists (record user_id name email).
  unfold plain in Hpn, Hpe. cbn. rewrite Hpn, Hpe. split; reflexivity.
Qed.

(** X24. A read or a deletion the table refuses is answered 500 with
    [DynamoDB error:] and the text of the error; the request was sent,
    the table is as it was. *)
Theorem refused_request_500 (ev : event) (w : world) (p msg : string) (c : call) :
  Event.path ev = Some p -> String.prefix USERS_PATH p = true ->
  (Event.httpMethod ev = Some "GET" /\ no_user_id ev /\ c = Scan)
  \/ (exists params user_id,
        Event.pathParameters ev = Present params /\ params !! "user_id" = Some user_id
        /\ user_id <> ""
        /\ ((Event.httpMethod ev = Some "GET" /\ c = GetItem user_id)
            \/ (Event.httpMethod ev = Some "DELETE" /\ c = DeleteItem user_id))) ->
  fails (backend w) (length (calls w)) c = Some msg ->
  handler ev w
  = ({| statusCode := 500;
        body := "{" +:+ quoted "error" +:+ ": " +:+ encode_string ("DynamoDB error: " +:+ msg)
                    +:+ "}" |},
     after w c (table w)).
Proof.
  intros Hp Hpre Hcases Hfail. unfold lambda_handler.
  destruct Hcases as [(Hm & Hno & ->)
                     | (params & user_id & Hpar & Hu & Hne & [[Hm ->] | [Hm ->]])].
  - rewrite (route_read _ _ ev p Hm Hp Hpre), (get_user_scan ev w Hno).
    unfold except_backend, bind, Table.scan. by rewrite (send_failed _ _ w msg Hfail).
  - by rewrite (route_read _ _ ev p Hm Hp Hpre),
               (get_user_failed ev w params user_id msg Hpar Hu Hne Hfail).
  - rewrite (route_delete _ _ ev p Hm Hp Hpre),
            (delete_user_delete ev w params user_id Hpar Hu Hne).
    unfold except_backend, bind, Table.delete_item. by rewrite (send_failed _ _ w msg Hfail).
Qed.

(** X25. A creation or an update whose values boto3 serializes and whose
    request the table refuses is answered 500 with [DynamoDB error:] and
    the text of the error; the table is as it was. *)
Theorem refused_write_500 (ev : event) (w : world) (p s msg : string)
    (d : list (string * json)) (name email : json) (c : call) :
  Event.path ev = Some p ->
  Event.body ev = Present s -> json_loads s = Some (JObj d) ->
  Dict.get "name" d = Some name -> Dict.get "email" d = Some email ->
  storable name -> storable email ->
  (Event.httpMethod ev = Some "POST" /\ p = USERS_PATH
   /\ c = PutItem (record (str_uuid (uuid4 (drawn w))) name email))
  \/ (exists params user_id,
        Event.httpMethod ev = Some "PUT" /\ String.prefix USERS_PATH p = true
        /\ Event.pathParameters ev = Present params /\ params !! "user_id" = Some user_id
        /\ user_id <> "" /\ c = UpdateItem user_id name email) ->
  fails (backend w) (length (calls w)) c = Some msg ->
  fst (handler ev w)
  = {| statusCode := 500;
       body := "{" +:+ quoted "error" +:+ ": " +:+ encode_string ("DynamoDB error: " +:+ msg)
                   +:+ "}" |}
  /\ table (snd (handler ev w)) = table w
  /\ calls (snd (handler ev w)) = calls w ++ [c].
Proof.
  intros Hp Hb Hl Hn He Hsn Hse Hcases Hfail. unfold lambda_handler.
  destruct Hcases as [(Hm & -> & ->)
                     | (params & user_id & Hm & Hpre & Hpar & Hu & Hne & ->)].
  - rewrite (route_create _ _ ev Hm Hp), (create_user_put _ _ ev w s d name email Hb Hl Hn He).
    unfold except_backend, bind.
    by rewrite (put_item_failed _
                  {| table := table w; calls := calls w; drawn := S (drawn w);
                     backend := backend w |} msg (storable_record _ _ _ Hsn Hse) Hfail).
  - rewrite (route_update _ _ ev p Hm Hp Hpre),
            (update_user_update _ ev w params user_id s d name email Hpar Hu Hne Hb Hl Hn He).
    unfold except_backend, bind.
    by rewrite (update_item_failed user_id name email w msg Hsn Hse Hfail).
Qed.


(** X27. A fetch or a deletion by a [user_id] of more than 2048 bytes is
    sent, refused by the table when it serves the request, and answered
    500 with [DynamoDB error:] and the text of the refusal; the table is
    as it was. *)
Theorem long_key_500 (ev : event) (w : world) (p : string) (params : gmap string string)
    (user_id : string) (c : call) :
  Event.path ev = Some p -> String.prefix USERS_PATH p = true ->
  Event.pathParameters ev = Present params -> params !! "user_id" = Some user_id ->
  (2048 < utf8_length user_id)%nat ->
  (Event.httpMethod ev = Some "GET" /\ c = GetItem user_id)
  \/ (Event.httpMethod ev = Some "DELETE" /\ c = DeleteItem user_id) ->
  served w c ->
  exists msg,
    handler ev w
    = ({| statusCode := 500;
          body := "{" +:+ quoted "error" +:+ ": "
                      +:+ encode_string ("DynamoDB error: " +:+ msg) +:+ "}" |},
       after w c (table w)).
Proof.
  intros Hp Hpre Hpar Hu Hlen Hcases Hserved.
  assert (Hne : user_id <> "") by (intros ->; cbn in Hlen; lia).
  unfold lambda_handler. destruct Hcases as [[Hm ->] | [Hm ->]]; eexists.
  - rewrite (route_read _ _ ev p Hm Hp Hpre), (get_user_get ev w params user_id Hpar Hu Hne).
    unfold except_backend, bind, Table.get_item, send. rewrite Hserved.
    by rewrite (check_key_long _ _ _ _ Hlen).
  - rewrite (route_delete _ _ ev p Hm Hp Hpre),
            (delete_user_delete ev w params user_id Hpar Hu Hne).
    unfold except_backend, bind, Table.delete_item, send. rewrite Hserved.
    by rewrite (check_key_long _ _ _ _ Hlen).
Qed.
(** X28. An update for a [user_id] of more than 2048 bytes, with a body
    that is an object with [name] and [email] boto3 serializes: the
    request is sent, the table refuses it when it serves the request, and
    the answer is 500 with [DynamoDB error:] and the text of the refusal;
    the table is as it was. *)
Theorem long_key_update_500 (ev : event) (w : world) (p s : string)
    (params : gmap string string) (user_id : string)
    (d : list (string * json)) (name email : json) :
  Event.httpMethod ev = Some "PUT" -> Event.path ev = Some p ->
  String.prefix USERS_PATH p = true ->
  Event.pathParameters ev = Present params -> params !! "user_id" = Some user_id ->
  (2048 < utf8_length user_id)%nat ->
  Event.body ev = Present s -> json_loads s = Some (JObj d) ->
  Dict.get "name" d = Some name -> Dict.get "email" d = Some email ->
  storable name -> storable email ->
  served w (UpdateItem user_id name email) ->
  exists msg,
    handler ev w
    = ({| statusCode := 500;
          body := "{" +:+ quoted "error" +:+ ": "
                      +:+ encode_string ("DynamoDB error: " +:+ msg) +:+ "}" |},
       after w (UpdateItem user_id name email) (table w)).
Proof.
  intros Hm Hp Hpre Hpar Hu Hlen Hb Hl Hn He Hsn Hse Hserved.
  assert (Hne : user_id <> "") by (intros ->; cbn in Hlen; lia).
  eexists. unfold lambda_handler.
  rewrite (route_update _ _ ev p Hm Hp Hpre),
          (update_user_update _ ev w params user_id s d name email Hpar Hu Hne Hb Hl Hn He).
  unfold except_backend, bind.
  by rewrite (update_item_long user_id name email w Hsn Hse Hserved Hlen).
Qed.
End Sequences.
(** * The further properties at sample events *)




Lemma users_prefix_any_suffix_witness :
  lambda_handler sample_loads sample_uuid4 get_archive one_user
  = respond (get_user get_archive one_user).
Proof.
  destruct (users_prefix_any_suffix sample_loads sample_uuid4 get_archive one_user "-archive")
    as (Hget & _ & _); [reflexivity|].
  apply Hget. reflexivity.
Defined.





Lemma scalar_body_500_witness :
  statusCode (fst (lambda_handler sample_loads_values sample_uuid4 post_five one_user)) = 500
  /\ snd (lambda_handler sample_loads_values sample_uuid4 post_five one_user) = one_user.
Proof.
  apply (scalar_body_500 sample_loads_values sample_uuid4 post_five one_user "5" (JInt 5));
    try reflexivity.
  left. split; reflexivity.
Defined.

Lemma create_array_body_witness :
  statusCode (fst (lambda_handler sample_loads_values sample_uuid4 post_names one_user)) = 500
  /\ snd (lambda_handler sample_loads_values sample_uuid4 post_names one_user)
     = {| table := table one_user; calls := calls one_user; drawn := 2;
        backend := backend one_user |}.
Proof.
  destruct (create_array_body sample_loads_values sample_uuid4 post_names one_user names_text
              [JStr "name"; JStr "email"]) as [Hboth _]; try reflexivity.
  apply Hboth. split; [left; reflexivity | right; left; reflexivity].
Defined.

Lemma create_string_body_witness :
  statusCode (fst (lambda_handler sample_loads_values sample_uuid4 post_sentence one_user)) = 500
  /\ snd (lambda_handler sample_loads_values sample_uuid4 post_sentence one_user)
     = {| table := table one_user; calls := calls one_user; drawn := 2;
        backend := backend one_user |}.
Proof.
  destruct (create_string_body sample_loads_values sample_uuid4 post_sentence one_user
              sentence_text "my name and email") as [Hboth _]; try reflexivity.
  apply Hboth. split; discriminate.
Defined.

Lemma update_array_or_string_body_witness :
  statusCode (fst (lambda_handler sample_loads_values sample_uuid4 put_names one_user)) = 500
  /\ snd (lambda_handler sample_loads_values sample_uuid4 put_names one_user) = one_user.
Proof.
  apply (update_array_or_string_body sample_loads_values sample_uuid4 put_names one_user
           "/users/u1" names_text u1_params "u1" (JArr [JStr "name"; JStr "email"]));
    first [reflexivity | discriminate | idtac].
  left. exists [JStr "name"; JStr "email"].
  split; [reflexivity|]. split; [left; reflexivity | right; left; reflexivity].
Defined.

Lemma error_keeps_table_witness :
  table (snd (lambda_handler sample_loads sample_uuid4 post_name_only one_user))
  = table one_user.
Proof.
  apply (error_keeps_table sample_loads sample_uuid4 post_name_only one_user).
  vm_compute. discriminate.
Defined.

Lemma get_is_read_only_witness :
  table (snd (lambda_handler sample_loads sample_uuid4 get_u1 one_user)) = table one_user
  /\ drawn (snd (lambda_handler sample_loads sample_uuid4 get_u1 one_user)) = drawn one_user
  /\ (calls (snd (lambda_handler sample_loads sample_uuid4 get_u1 one_user)) = calls one_user
      \/ exists c, is_write c = false
                   /\ calls (snd (lambda_handler sample_loads sample_uuid4 get_u1 one_user))
                      = calls one_user ++ [c]).
Proof. apply (get_is_read_only sample_loads sample_uuid4 get_u1 one_user). reflexivity. Defined.

Lemma other_users_untouched_witness :
  table (snd (lambda_handler sample_loads sample_uuid4 delete_u1 two_users)) !! "u2"
  = table two_users !! "u2".
Proof.
  apply (other_users_untouched sample_loads sample_uuid4 delete_u1 two_users u1_params "u1" "u2");
    first [reflexivity | discriminate | idtac].
  right. reflexivity.
Defined.

Lemma create_touches_new_id_only_witness :
  table (snd (lambda_handler sample_loads sample_uuid4 post_ana one_user)) !! "u1"
  = table one_user !! "u1".
Proof.
  apply (create_touches_new_id_only sample_loads sample_uuid4 post_ana one_user "u1");
    [reflexivity | vm_compute; discriminate].
Defined.

(** The list of a table of two users when the scan returns both, and when
    it returns a page of one; and of a table in which a record holds a
    number. *)
Lemma list_users_page_witness :
  (exists first second,
     lambda_handler sample_loads sample_uuid4 get_bare two_users
     = ({| statusCode := 200; body := json_dumps (JArr [JObj first; JObj second]) |},
        after two_users Scan (table two_users)))
  /\ (exists only,
        lambda_handler sample_loads sample_uuid4 get_bare two_users_paged
        = ({| statusCode := 200; body := json_dumps (JArr [JObj only]) |},
           after two_users_paged Scan (table two_users_paged)))
  /\ statusCode (fst (lambda_handler sample_loads sample_uuid4 get_bare one_numbered_user))
     = 500.
Proof.
  pose proof (fun w =>
    list_users_page sample_loads sample_uuid4 get_bare w "/users"
      eq_refl eq_refl eq_refl (or_introl eq_refl)) as Hall.
  split; [|split].
  - destruct (Hall two_users eq_refl) as (Hw & Hplain & _).
    eexists _, _. rewrite (surjective_pairing (lambda_handler _ _ _ _)), Hw, Hplain;
      reflexivity.
  - destruct (Hall two_users_paged eq_refl) as (Hw & Hplain & _).
    eexists. rewrite (surjective_pairing (lambda_handler _ _ _ _)), Hw, Hplain;
      reflexivity.
  - destruct (Hall one_numbered_user eq_refl) as (_ & _ & Hnumber).
    rewrite Hnumber; reflexivity.
Defined.

Lemma update_creates_missing_user_witness :
  fst (lambda_handler sample_loads sample_uuid4 get_u1 empty_world)
  = {| statusCode := 404;
       body := "{" +:+ quoted "error" +:+ ": " +:+ quoted "User not found" +:+ "}" |}
  /\ fst (lambda_handler sample_loads sample_uuid4 put_u1 empty_world)
     = {| statusCode := 200;
          body := "{" +:+ quoted "message" +:+ ": " +:+ quoted "User updated successfully"
                      +:+ "}" |}
  /\ exists fetched,
       fst (lambda_handler sample_loads sample_uuid4 get_u1
              (snd (lambda_handler sample_loads sample_uuid4 put_u1 empty_world)))
       = {| statusCode := 200; body := json_dumps (JObj fetched) |}
       /\ forall k, Dict.get k fetched
                    = Dict.get k (record "u1" (JStr "Ana") (JStr "ana@x.com")).
Proof.
  apply (update_creates_missing_user sample_loads sample_uuid4 put_u1 get_u1 empty_world
           "/users/u1" "/users/u1" ana_text u1_params u1_params "u1" ana
           (JStr "Ana") (JStr "ana@x.com"));
    first [reflexivity | apply key_ok_checked; reflexivity].
Defined.

Lemma create_update_get_witness :
  exists fetched,
    fst (lambda_handler sample_loads_people sample_uuid4 get_first_id
           (snd (lambda_handler sample_loads_people sample_uuid4 put_first_id_bob
                   (snd (lambda_handler sample_loads_people sample_uuid4 post_ana
                           empty_world)))))
    = {| statusCode := 200; body := json_dumps (JObj fetched) |}
    /\ forall k, Dict.get k fetched
                 = Dict.get k (record first_id (JStr "Bob") (JStr "bob@x.com")).
Proof.
  apply (create_update_get sample_loads_people sample_uuid4 post_ana put_first_id_bob get_first_id
           empty_world ana_text bob_text ("/users/" +:+ first_id) ("/users/" +:+ first_id)
           ana bob (JStr "Ana") (JStr "ana@x.com") (JStr "Bob") (JStr "bob@x.com")
           {["user_id" := first_id]} {["user_id" := first_id]}); reflexivity.
Defined.

(** A table that does not exist: the fetch, the list and the deletion. *)
Lemma refused_request_500_witness :
  let answer (c : call) :=
    ({| statusCode := 500;
        body := "{" +:+ quoted "error" +:+ ": "
                    +:+ quoted ("DynamoDB error: " +:+ not_found_text c) +:+ "}" |},
     after one_user_no_table c (table one_user_no_table)) in
  lambda_handler sample_loads sample_uuid4 get_u1 one_user_no_table = answer (GetItem "u1")
  /\ lambda_handler sample_loads sample_uuid4 get_bare one_user_no_table = answer Scan
  /\ lambda_handler sample_loads sample_uuid4 delete_u1 one_user_no_table
     = answer (DeleteItem "u1").
Proof.
  split; [|split].
  - apply (refused_request_500 sample_loads sample_uuid4 get_u1 one_user_no_table "/users/u1"
             (not_found_text (GetItem "u1")) (GetItem "u1")); try reflexivity.
    right. exists u1_params, "u1".
    split; [reflexivity|]. split; [reflexivity|]. split; [discriminate|].
    left. split; reflexivity.
  - apply (refused_request_500 sample_loads sample_uuid4 get_bare one_user_no_table "/users"
             (not_found_text Scan) Scan); try reflexivity.
    left. split; [reflexivity|]. split; [left; reflexivity | reflexivity].
  - apply (refused_request_500 sample_loads sample_uuid4 delete_u1 one_user_no_table "/users/u1"
             (not_found_text (DeleteItem "u1")) (DeleteItem "u1")); try reflexivity.
    right. exists u1_params, "u1".
    split; [reflexivity|]. split; [reflexivity|]. split; [discriminate|].
    right. split; reflexivity.
Defined.

(** A table that does not exist: the creation and the update. *)
Lemma refused_write_500_witness :
  let answer (c : call) :=
    {| statusCode := 500;
       body := "{" +:+ quoted "error" +:+ ": "
                   +:+ quoted ("DynamoDB error: " +:+ not_found_text c) +:+ "}" |} in
  let put := PutItem (record (str_uuid 1) (JStr "Ana") (JStr "ana@x.com")) in
  let update := UpdateItem "u1" (JStr "Ana") (JStr "ana@x.com") in
  (fst (lambda_handler sample_loads sample_uuid4 post_ana one_user_no_table) = answer put
   /\ table (snd (lambda_handler sample_loads sample_uuid4 post_ana one_user_no_table))
      = table one_user_no_table
   /\ calls (snd (lambda_handler sample_loads sample_uuid4 post_ana one_user_no_table))
      = calls one_user_no_table ++ [put])
  /\ (fst (lambda_handler sample_loads sample_uuid4 put_u1 one_user_no_table) = answer update
      /\ table (snd (lambda_handler sample_loads sample_uuid4 put_u1 one_user_no_table))
         = table one_user_no_table
      /\ calls (snd (lambda_handler sample_loads sample_uuid4 put_u1 one_user_no_table))
         = calls one_user_no_table ++ [update]).
Proof.
  split.
  - apply (refused_write_500 sample_loads sample_uuid4 post_ana one_user_no_table "/users"
             ana_text
             (not_found_text (PutItem (record (str_uuid 1) (JStr "Ana") (JStr "ana@x.com"))))
             ana (JStr "Ana") (JStr "ana@x.com")
             (PutItem (record (str_uuid 1) (JStr "Ana") (JStr "ana@x.com"))));
      try reflexivity.
    left. split; [reflexivity|]. split; reflexivity.
  - apply (refused_write_500 sample_loads sample_uuid4 put_u1 one_user_no_table "/users/u1"
             ana_text (not_found_text (UpdateItem "u1" (JStr "Ana") (JStr "ana@x.com")))
             ana (JStr "Ana") (JStr "ana@x.com")
             (UpdateItem "u1" (JStr "Ana") (JStr "ana@x.com"))); try reflexivity.
    right. exists u1_params, "u1".
    split; [reflexivity|]. split; [reflexivity|]. split; [reflexivity|].
    split; [reflexivity|]. split; [discriminate | reflexivity].
Defined.


(** A [user_id] of 2049 bytes, in a fetch and in a deletion. *)
Lemma long_key_500_witness :
  (exists msg,
     lambda_handler sample_loads sample_uuid4 get_long_id one_user
     = ({| statusCode := 500;
           body := "{" +:+ quoted "error" +:+ ": "
                       +:+ encode_string ("DynamoDB error: " +:+ msg) +:+ "}" |},
        after one_user (GetItem long_id) (table one_user)))
  /\ (exists msg,
        lambda_handler sample_loads sample_uuid4 delete_long_id one_user
        = ({| statusCode := 500;
              body := "{" +:+ quoted "error" +:+ ": "
                          +:+ encode_string ("DynamoDB error: " +:+ msg) +:+ "}" |},
           after one_user (DeleteItem long_id) (table one_user))).
Proof.
  assert (Hlen : (2048 < utf8_length long_id)%nat) by (apply Nat.ltb_lt; vm_compute; reflexivity).
  split.
  - apply (long_key_500 sample_loads sample_uuid4 get_long_id one_user
             ("/users/" +:+ long_id) long_id_params long_id (GetItem long_id)
             eq_refl eq_refl eq_refl eq_refl Hlen (or_introl (conj eq_refl eq_refl)) eq_refl).
  - apply (long_key_500 sample_loads sample_uuid4 delete_long_id one_user
             ("/users/" +:+ long_id) long_id_params long_id (DeleteItem long_id)
             eq_refl eq_refl eq_refl eq_refl Hlen (or_intror (conj eq_refl eq_refl)) eq_refl).
Defined.

(** A [user_id] of 2049 bytes in an update. *)
Lemma long_key_update_500_witness :
  exists msg,
    lambda_handler sample_loads sample_uuid4 put_long_id one_user
    = ({| statusCode := 500;
          body := "{" +:+ quoted "error" +:+ ": "
                      +:+ encode_string ("DynamoDB error: " +:+ msg) +:+ "}" |},
       after one_user (UpdateItem long_id (JStr "Ana") (JStr "ana@x.com")) (table one_user)).
Proof.
  assert (Hlen : (2048 < utf8_length long_id)%nat) by (apply Nat.ltb_lt; vm_compute; reflexivity).
  apply (long_key_update_500 sample_loads sample_uuid4 put_long_id one_user
           ("/users/" +:+ long_id) ana_text long_id_params long_id ana
           (JStr "Ana") (JStr "ana@x.com")
           eq_refl eq_refl eq_refl eq_refl eq_refl Hlen eq_refl eq_refl eq_refl eq_refl
           eq_refl eq_refl eq_refl).
Defined.
